(** * Silktide Consent Manager: consent state, persistence and notification

    A shallow embedding of the consent core of
    [src/silktide-consent-manager.js] (class [SilktideConsentManager]):
    the localStorage adapter, the key builders with lazy migration, the
    per-category consent store, the batched diff/integration engine and
    the accept-all/reject-all action.

    Conventions of the embedding:
    - [window.localStorage] is a finite map from keys to strings; the
      browser may make any single access throw (disabled storage, quota,
      security policy), which the [Host] record describes;
    - plain JS objects used as dictionaries ([consentStates],
      [gtagConsentUpdate], the result of [getAcceptedConsents]) are finite
      maps; a missing property reads as [undefined] (category and signal
      identifiers are taken not to be names inherited from
      [Object.prototype]);
    - every observable call into the host page (console, [gtag],
      [window.silktide], [dataLayer.push], user callbacks, [setTimeout])
      is recorded, in program order, in the event list a computation
      returns;
    - user callbacks ([onAccept], [onReject], ...) are host code: the model
      records that they are called and assumes they return normally and do
      not touch the storage themselves. *)

From Stdlib Require Import String List Bool Lia.
From stdpp Require Import base gmap strings list option.
Import ListNotations.

Local Open Scope string_scope.
Local Open Scope list_scope.

(** ** JavaScript values and results *)

(** The values a requested consent state or a stored choice can take. *)
Inductive jsval :=
| JUndefined
| JNull
| JBool (b : bool).

#[global] Instance jsval_eq_dec : EqDecision jsval.
Proof. solve_decision. Defined.

(** [v ? a : b], [if (v)] *)
Definition truthy (v : jsval) : bool :=
  match v with JBool b => b | _ => false end.

(** An optional string tested as a condition: [undefined] and [''] are falsy. *)
Definition truthy_str (o : option string) : bool :=
  match o with
  | Some s => negb (String.eqb s "")
  | None => false
  end.

Inductive exn :=
| TypeError (msg : string)
| Error (msg : string)
| DOMException.

Inductive Result (A : Type) :=
| Ok (a : A)
| Throw (e : exn).
Arguments Ok {A} a.
Arguments Throw {A} e.

(** ** The host page *)

(** A script element of the document. *)
Record ScriptElement := {
  el_src : string;
  el_consentId : string;
  el_async : bool;
  el_defer : bool;
  el_type : option string;
  el_crossOrigin : option string;
  el_integrity : option string
}.

(** The mutable part of the page that the consent core reads back. *)
Record Store := {
  localStorage : gmap string string;
  document_scripts : list ScriptElement
}.

(** Calls that leave the consent core. *)
Inductive event :=
| console_warn (msg : string)
| console_log (msg : string)
| gtag_consent_update (payload : gmap string string)
| window_silktide (cmd : string)
| dataLayer_push (eventName : string)
| call_onAccept (typeId : string)
| call_onReject (typeId : string)
| call_onAcceptAll
| call_onRejectAll
| setTimeout_reload (ms : nat)
| presentation (method : string).

(** What the page provides: which storage accesses throw, and whether the
    integration functions exist. *)
Record Host := {
  getItem_throws : string -> bool;
  setItem_throws : string -> string -> bool;
  removeItem_throws : string -> bool;
  gtag_is_function : bool;
  silktide_is_function : bool
}.

(** ** Computations: state, exceptions and emitted events *)

Definition M (A : Type) : Type := Store -> Result A * Store * list event.

Definition ret {A} (a : A) : M A := fun s => (Ok a, s, []).

Definition bind {A B} (m : M A) (k : A -> M B) : M B :=
  fun s =>
    match m s with
    | (Ok a, s1, ev1) =>
        match k a s1 with
        | (r, s2, ev2) => (r, s2, ev1 ++ ev2)
        end
    | (Throw e, s1, ev1) => (Throw e, s1, ev1)
    end.

Definition throw {A} (e : exn) : M A := fun s => (Throw e, s, []).

(** [try { m } catch (e) { h e }] *)
Definition try_catch {A} (m : M A) (h : exn -> M A) : M A :=
  fun s =>
    match m s with
    | (Ok a, s1, ev1) => (Ok a, s1, ev1)
    | (Throw e, s1, ev1) =>
        match h e s1 with
        | (r, s2, ev2) => (r, s2, ev1 ++ ev2)
        end
    end.

Definition emit (e : event) : M unit := fun s => (Ok tt, s, [e]).

Definition lift {A} (r : Result A) : M A := fun s => (r, s, []).

Notation "'let*' x ':=' m 'in' k" := (bind m (fun x => k))
  (at level 20, x name, m at level 100, k at level 200, only parsing).

(** [l.forEach(f)] *)
Fixpoint forEach {A} (l : list A) (f : A -> M unit) : M unit :=
  match l with
  | [] => ret tt
  | x :: xs => let* _ := f x in forEach xs f
  end.

(** [l.forEach] whose callback updates variables of the enclosing function. *)
Fixpoint forEach_acc {A B} (l : list A) (f : B -> A -> M B) (acc : B) : M B :=
  match l with
  | [] => ret acc
  | x :: xs => let* acc' := f acc x in forEach_acc xs f acc'
  end.

Definition result_of {A} (x : Result A * Store * list event) : Result A := x.1.1.
Definition store_of {A} (x : Result A * Store * list event) : Store := x.1.2.
Definition events_of {A} (x : Result A * Store * list event) : list event := x.2.

(** ** Configuration *)

Record ScriptConfig := {
  url : option string;
  load : option string;
  script_type : option string;   (* the descriptor's [type] property *)
  crossorigin : option string;
  integrity : option string
}.

(** The [gtag] property of a consent type: absent, one parameter name, or
    an array of them. *)
Inductive GtagSpec :=
| gtag_absent
| gtag_string (param : string)
| gtag_array (params : list string).

Record ConsentType := {
  id : string;
  required : bool;
  defaultValue : bool;
  scripts : option (list ScriptConfig);
  gtag : GtagSpec;
  onAccept : bool;   (* [typeof type.onAccept === 'function'] *)
  onReject : bool
}.

(** [this.config] as the constructor leaves it. *)
Record Config := {
  consentTypes : list ConsentType;
  namespace : option string;
  eventName : string;
  debug : bool;
  onAcceptAll : bool;
  onRejectAll : bool
}.

(** An entry of the [changes] array of [batchUpdateConsents]. *)
Record Change := {
  type : ConsentType;
  newState : jsval;
  previousState : jsval
}.

(** The local variables of [batchUpdateConsents] that its first pass fills. *)
Record Detected := {
  changes : list Change;
  gtagConsentUpdate : gmap string string;
  hasChanges : bool;
  needsReload : bool
}.

(** The fields of the instance the consent core reads. *)
Record Manager := {
  config : Config;
  localStorageAvailable : bool
}.

(** What a caller hands to the constructor. *)
Record ConfigArg := {
  arg_consentTypes : option (list ConsentType);  (* [None]: missing or not an array *)
  arg_namespace : option string;
  arg_eventName : option string;
  arg_debug : option bool;
  arg_onAcceptAll : bool;
  arg_onRejectAll : bool
}.

(** ** The consent core *)

Definition warn_unavailable : event :=
  console_warn "Silktide Consent Manager: localStorage is not available. Consent choices will not persist.".
Definition warn_read : event :=
  console_warn "Silktide Consent Manager: Error reading from localStorage".
Definition warn_write : event :=
  console_warn "Silktide Consent Manager: Error writing to localStorage".
Definition warn_remove : event :=
  console_warn "Silktide Consent Manager: Error removing from localStorage".
Definition warn_script_url : event :=
  console_warn "Silktide Consent Manager: Script URL is required".
Definition log_gtag_updated : event :=
  console_log "✓ gtag consent updated (from user action):".
Definition log_gtm_sent (eventName : string) : event :=
  console_log ("▶ GTM Event Sent: " +:+ eventName +:+ " (from user action)").
Definition testKey : string := "__stcm_test__".

Section Core.

Variable host : Host.
Variable this : Manager.

(** *** window.localStorage *)

Definition set_localStorage (f : gmap string string -> gmap string string)
    (s : Store) : Store :=
  {| localStorage := f (localStorage s);
     document_scripts := document_scripts s |}.

Definition localStorage_getItem (key : string) : M (option string) :=
  fun s =>
    if getItem_throws host key then (Throw DOMException, s, [])
    else (Ok (localStorage s !! key), s, []).

Definition localStorage_setItem (key value : string) : M unit :=
  fun s =>
    if setItem_throws host key value then (Throw DOMException, s, [])
    else (Ok tt, set_localStorage (insert key value) s, []).

Definition localStorage_removeItem (key : string) : M unit :=
  fun s =>
    if removeItem_throws host key then (Throw DOMException, s, [])
    else (Ok tt, set_localStorage (delete key) s, []).

(** *** Storage adapter *)

Definition _checkLocalStorageAvailable : M bool :=
  try_catch
    (let* _ := localStorage_setItem testKey "1" in
     let* _ := localStorage_removeItem testKey in
     ret true)
    (fun e =>
     let* _ := emit warn_unavailable in
     ret false).

Definition _getLocalStorageItem (key : string) : M (option string) :=
  if negb (localStorageAvailable this) then ret None
  else
    try_catch
      (localStorage_getItem key)
      (fun e =>
       let* _ := emit warn_read in
       ret None).

Definition _setLocalStorageItem (key value : string) : M bool :=
  if negb (localStorageAvailable this) then ret false
  else
    try_catch
      (let* _ := localStorage_setItem key value in ret true)
      (fun e =>
       let* _ := emit warn_write in
       ret false).

Definition _removeLocalStorageItem (key : string) : M bool :=
  if negb (localStorageAvailable this) then ret false
  else
    try_catch
      (let* _ := localStorage_removeItem key in ret true)
      (fun e =>
       let* _ := emit warn_remove in
       ret false).

(** *** Key builders *)

Definition old_suffix : string :=
  match namespace (config this) with
  | Some ns => if truthy_str (Some ns) then "_" +:+ ns else ""
  | None => ""
  end.

Definition new_ns : string :=
  match namespace (config this) with
  | Some ns => if truthy_str (Some ns) then ns +:+ "." else ""
  | None => ""
  end.

Definition _buildOldConsentKey (typeId : string) : string :=
  "silktideCookieChoice_" +:+ typeId +:+ old_suffix.

Definition _buildOldHasConsentedKey : string :=
  "silktideCookieBanner_InitialChoice" +:+ old_suffix.

Definition _buildConsentKey (typeId : string) : string :=
  "stcm." +:+ new_ns +:+ "consent." +:+ typeId.

Definition _buildHasConsentedKey : string :=
  "stcm." +:+ new_ns +:+ "hasConsented".

(** *** Consent state store, with lazy migration *)

(** The common shape of [getConsentChoice] and [getHasConsented]: read the
    new key and fall back, migrating, to the old one. *)
Definition read_migrating (newKey oldKey : string) : M (option string) :=
  let* value := _getLocalStorageItem newKey in
  match value with
  | Some _ => ret value
  | None =>
      let* value := _getLocalStorageItem oldKey in
      match value with
      | Some v =>
          let* _ := _setLocalStorageItem newKey v in
          let* _ := _removeLocalStorageItem oldKey in
          ret value
      | None => ret value
      end
  end.

Definition getConsentChoice (typeId : string) : M jsval :=
  let newKey := _buildConsentKey typeId in
  let* value := read_migrating newKey (_buildOldConsentKey typeId) in
  ret (match value with
       | None => JNull
       | Some v => JBool (String.eqb v "true")
       end).

(** [accepted.toString()] *)
Definition toString (v : jsval) : M string :=
  match v with
  | JBool true => ret "true"
  | JBool false => ret "false"
  | JUndefined =>
      throw (TypeError "Cannot read properties of undefined (reading 'toString')")
  | JNull =>
      throw (TypeError "Cannot read properties of null (reading 'toString')")
  end.

Definition setConsentChoice (typeId : string) (accepted : jsval) : M unit :=
  let newKey := _buildConsentKey typeId in
  let* str := toString accepted in
  let* _ := _setLocalStorageItem newKey str in
  let oldKey := _buildOldConsentKey typeId in
  let* old := _getLocalStorageItem oldKey in
  match old with
  | Some _ => let* _ := _removeLocalStorageItem oldKey in ret tt
  | None => ret tt
  end.

Definition getHasConsented : M bool :=
  let newKey := _buildHasConsentedKey in
  let* value := read_migrating newKey _buildOldHasConsentedKey in
  ret (match value with None => false | Some _ => true end).

Definition setHasConsented : M unit :=
  let newKey := _buildHasConsentedKey in
  let* _ := _setLocalStorageItem newKey "1" in
  let oldKey := _buildOldHasConsentedKey in
  let* old := _getLocalStorageItem oldKey in
  match old with
  | Some _ => let* _ := _removeLocalStorageItem oldKey in ret tt
  | None => ret tt
  end.

(** *** Script injection *)

Definition _injectScript (scriptConfig : ScriptConfig) (consentId : string) : M unit :=
  match url scriptConfig with
  | Some u =>
      if String.eqb u "" then
        emit warn_script_url
      else fun s =>
        if existsb (fun el => String.eqb (el_src el) u) (document_scripts s)
        then (Ok tt, s, [])
        else
          let script :=
            {| el_src := u;
               el_consentId := consentId;
               el_async := bool_decide (load scriptConfig = Some "async");
               el_defer := bool_decide (load scriptConfig = Some "defer");
               el_type :=
                 if truthy_str (script_type scriptConfig)
                 then script_type scriptConfig else None;
               el_crossOrigin :=
                 if truthy_str (crossorigin scriptConfig)
                 then crossorigin scriptConfig else None;
               el_integrity :=
                 if truthy_str (integrity scriptConfig)
                 then integrity scriptConfig else None |} in
          (Ok tt,
           {| localStorage := localStorage s;
              document_scripts := document_scripts s ++ [script] |},
           [])
  | None =>
      emit warn_script_url
  end.

Definition _injectConsentScripts (consentType : ConsentType) : M unit :=
  match scripts consentType with
  | None => ret tt
  | Some l =>
      forEach l (fun scriptConfig => _injectScript scriptConfig (id consentType))
  end.

(** *** Batched update *)

(** [type.gtag] normalised to an array; [None] when [type.gtag] is falsy. *)
Definition gtagParams (g : GtagSpec) : option (list string) :=
  match g with
  | gtag_absent => None
  | gtag_string p => if String.eqb p "" then None else Some [p]
  | gtag_array ps => Some ps
  end.

(** [params.forEach(param => { obj[param] = consentState })] *)
Definition assign_params (params : list string) (consentState : string)
    (obj : gmap string string) : gmap string string :=
  fold_left (fun o param => <[param := consentState]> o) params obj.

(** [type.scripts?.length > 0] *)
Definition hadScripts (ty : ConsentType) : bool :=
  match scripts ty with
  | Some l => bool_decide (0 < length l)
  | None => false
  end.

Definition wasRevoked (previousState newState : jsval) : bool :=
  bool_decide (previousState = JBool true) && bool_decide (newState = JBool false).

(** [consentStates[type.id]] *)
Definition requested (consentStates : gmap string jsval) (typeId : string) : jsval :=
  default JUndefined (consentStates !! typeId).

(** Body of the first [forEach] of [batchUpdateConsents], after
    [previousState] has been read. *)
Definition compare (consentStates : gmap string jsval)
    (acc : Detected) (ty : ConsentType) (previousState : jsval) : Detected :=
  let newState := requested consentStates (id ty) in
  if bool_decide (newState = previousState) then acc
  else
    let changes' :=
      changes acc ++
      [{| type := ty; newState := newState; previousState := previousState |}] in
    let needsReload' :=
      if wasRevoked previousState newState && hadScripts ty then true
      else needsReload acc in
    let gtagConsentUpdate' :=
      match gtagParams (gtag ty) with
      | Some params =>
          let consentState := if truthy newState then "granted" else "denied" in
          assign_params params consentState (gtagConsentUpdate acc)
      | None => gtagConsentUpdate acc
      end in
    {| changes := changes';
       gtagConsentUpdate := gtagConsentUpdate';
       hasChanges := true;
       needsReload := needsReload' |}.

Definition detect (consentStates : gmap string jsval)
    (acc : Detected) (ty : ConsentType) : M Detected :=
  let* previousState := getConsentChoice (id ty) in
  ret (compare consentStates acc ty previousState).

Definition no_changes : Detected :=
  {| changes := []; gtagConsentUpdate := ∅; hasChanges := false; needsReload := false |}.

Definition first_pass (consentStates : gmap string jsval) : M Detected :=
  forEach_acc (consentTypes (config this)) (detect consentStates) no_changes.

(** Second pass: save to localStorage. *)
Definition second_pass (chs : list Change) : M unit :=
  forEach chs (fun c => setConsentChoice (id (type c)) (newState c)).

(** The single integration call, or the Silktide Analytics fallback. *)
Definition notify_integration (upd : gmap string string) : M unit :=
  if bool_decide (0 < size upd) && gtag_is_function host then
    let* _ := emit (gtag_consent_update upd) in
    if debug (config this)
    then emit log_gtag_updated
    else ret tt
  else if truthy_str (upd !! "analytics_storage") then
    if silktide_is_function host then
      let analyticsGranted := bool_decide (upd !! "analytics_storage" = Some "granted") in
      emit (window_silktide (if analyticsGranted then "consent" else "unconsent"))
    else ret tt
  else ret tt.

(** [window.dataLayer.push({ 'event': this.config.eventName })] *)
Definition fire_gtm_event : M unit :=
  let* _ := emit (dataLayer_push (eventName (config this))) in
  if debug (config this)
  then emit (log_gtm_sent (eventName (config this)))
  else ret tt.

(** Third pass: run callbacks and inject scripts. *)
Definition third_pass (chs : list Change) : M unit :=
  forEach chs (fun c =>
    if truthy (newState c) then
      let* _ := _injectConsentScripts (type c) in
      if onAccept (type c) then emit (call_onAccept (id (type c))) else ret tt
    else
      if onReject (type c) then emit (call_onReject (id (type c))) else ret tt).

Definition batchUpdateConsents (consentStates : gmap string jsval) : M bool :=
  let* d := first_pass consentStates in
  if negb (hasChanges d) then ret false
  else
    let* _ := second_pass (changes d) in
    let* _ := notify_integration (gtagConsentUpdate d) in
    let* _ := fire_gtm_event in
    let* _ := third_pass (changes d) in
    let* _ := (if needsReload d then emit (setTimeout_reload 100) else ret tt) in
    ret true.

(** *** Accept all / reject all *)

(** The [consentStates] object [handleConsentChoice] builds. *)
Definition build_consentStates (accepted : bool) : gmap string jsval :=
  fold_left
    (fun consentStates ty =>
       if required ty then <[id ty := JBool true]> consentStates
       else <[id ty := JBool accepted]> consentStates)
    (consentTypes (config this)) ∅.

(** The presentation-layer calls ([removeBanner], [hideBackdrop], ...) are
    recorded but not interpreted; the final [updateCheckboxState()] only
    reads the stored choices back into the form. *)
Definition handleConsentChoice (accepted : bool) : M unit :=
  let* _ := setHasConsented in
  let* _ := emit (presentation "removeBanner") in
  let* _ := emit (presentation "hideBackdrop") in
  let* _ := emit (presentation "toggleModal") in
  let* _ := emit (presentation "showCookieIcon") in
  let consentStates := build_consentStates accepted in
  let* _ := batchUpdateConsents consentStates in
  let* _ :=
    (if accepted && onAcceptAll (config this) then emit call_onAcceptAll
     else if negb accepted && onRejectAll (config this) then emit call_onRejectAll
     else ret tt) in
  emit (presentation "updateCheckboxState").

(** *** Summaries *)

Definition getAcceptedConsents : M (gmap string jsval) :=
  forEach_acc (consentTypes (config this))
    (fun acc consentType =>
       let* choice := getConsentChoice (id consentType) in
       ret (<[id consentType := choice]> acc))
    ∅.

Definition getRejectedConsents : M (gmap string jsval) :=
  forEach_acc (consentTypes (config this))
    (fun acc consentType =>
       let* choice := getConsentChoice (id consentType) in
       ret (<[id consentType := JBool (bool_decide (choice = JBool false))]> acc))
    ∅.

End Core.

(** *** Construction *)

Definition _validateConfig (config : option ConfigArg) : Result unit :=
  match config with
  | None => Throw (Error "Silktide Consent Manager: config is required")
  | Some c =>
      match arg_consentTypes c with
      | None =>
          Throw (Error "Silktide Consent Manager: config.consentTypes must be an array")
      | Some [] =>
          Throw (Error "Silktide Consent Manager: config.consentTypes cannot be empty")
      | Some (_ :: _) => Ok tt
      end
  end.

(** The part of the constructor that precedes the construction of the
    user interface: validation, defaults, and the storage probe. *)
Definition constructor (host : Host) (arg : option ConfigArg) : M Manager :=
  let* _ := lift (_validateConfig arg) in
  match arg with
  | Some c =>
      let cfg :=
        {| consentTypes := default [] (arg_consentTypes c);
           namespace := arg_namespace c;
           eventName :=
             if truthy_str (arg_eventName c)
             then default "" (arg_eventName c) else "stcm_consent_update";
           debug := bool_decide (arg_debug c = Some true);
           onAcceptAll := arg_onAcceptAll c;
           onRejectAll := arg_onRejectAll c |} in
      let* available := _checkLocalStorageAvailable host in
      ret {| config := cfg; localStorageAvailable := available |}
  | None => throw (Error "Silktide Consent Manager: config is required")
  end.

(** ** The rest of the consent core *)

(** The variables the load-time [forEach] of [runConsentCallbacksOnLoad]
    updates. *)
Record Loaded := {
  load_gtagConsentUpdate : gmap string string;
  hasGtagUpdates : bool;
  isFirstConsentLoad : bool
}.

Definition log_gtag_updated_on_load : event :=
  console_log "✓ gtag consent updated (on page load):".
Definition log_gtm_sent_on_load (eventName : string) (isFirstConsentLoad : bool) : event :=
  console_log ("▶ GTM Event Sent: " +:+ eventName +:+ " (" +:+
               (if isFirstConsentLoad then "from first page load"
                else "from return visit") +:+ ")").

Section Lifecycle.

Variable host : Host.
Variable this : Manager.

(** *** Reset *)

(** The test [clearAllConsents] applies to each key of the storage. *)
Definition is_consent_key (key : string) : bool :=
  negb (String.eqb key "") &&
  (String.prefix "silktideCookieBanner_" key ||
   String.prefix "silktideCookieChoice_" key ||
   String.prefix "stcm." key).

(** [localStorage.length] and [localStorage.key(i)]: the keys of the
    storage, or an exception when the page refuses the enumeration. *)
Definition localStorage_keys (enumeration_throws : bool) : M (list string) :=
  fun s =>
    if enumeration_throws then (Throw DOMException, s, [])
    else (Ok (map fst (map_to_list (localStorage s))), s, []).

Definition clearAllConsents (enumeration_throws : bool) : M unit :=
  if negb (localStorageAvailable this) then ret tt
  else
    try_catch
      (let* keys := localStorage_keys enumeration_throws in
       let keysToRemove := List.filter is_consent_key keys in
       forEach keysToRemove (fun key =>
         let* _ := _removeLocalStorageItem host this key in ret tt))
      (fun e => ret tt).

(** *** Per-category integration *)

Definition _wasConsentRevoked (consentId : string) (newState : jsval) : M bool :=
  let* previousState := getConsentChoice host this consentId in
  ret (wasRevoked previousState newState).

Definition triggerConsentIntegration (consentType : ConsentType)
    (accepted : jsval) : M unit :=
  match gtagParams (gtag consentType) with
  | None => ret tt
  | Some params =>
      let* _ :=
        (if gtag_is_function host then
           let consentState := if truthy accepted then "granted" else "denied" in
           emit (gtag_consent_update (assign_params params consentState ∅))
         else if bool_decide ("analytics_storage" ∈ params) then
           if silktide_is_function host then
             emit (window_silktide (if truthy accepted then "consent" else "unconsent"))
           else ret tt
         else ret tt) in
      emit (dataLayer_push (eventName (config this)))
  end.


(** *** Page load *)

(** [gtagParams.forEach(param => { gtagConsentUpdate[param] = state })],
    with [hasGtagUpdates = true], when [type.gtag] is set. *)
Definition load_gtag (ty : ConsentType) (state : string) (acc : Loaded) : Loaded :=
  match gtagParams (gtag ty) with
  | Some params =>
      {| load_gtagConsentUpdate := assign_params params state (load_gtagConsentUpdate acc);
         hasGtagUpdates := true;
         isFirstConsentLoad := isFirstConsentLoad acc |}
  | None => acc
  end.

(** Body of the [forEach] of [runConsentCallbacksOnLoad]. *)
Definition load_type (acceptedConsents rejectedConsents : gmap string jsval)
    (acc : Loaded) (ty : ConsentType) : M Loaded :=
  if required ty then
    let* currentValue := getConsentChoice host this (id ty) in
    let* acc1 :=
      (if bool_decide (currentValue = JNull) then
         let* _ := setConsentChoice host this (id ty) (JBool true) in
         ret {| load_gtagConsentUpdate := load_gtagConsentUpdate acc;
                hasGtagUpdates := hasGtagUpdates acc;
                isFirstConsentLoad := true |}
       else ret acc) in
    let* _ := _injectConsentScripts ty in
    let acc2 := load_gtag ty "granted" acc1 in
    let* _ := (if onAccept ty then emit (call_onAccept (id ty)) else ret tt) in
    ret acc2
  else if truthy (requested acceptedConsents (id ty)) then
    let* _ := _injectConsentScripts ty in
    let acc2 := load_gtag ty "granted" acc in
    let* _ := (if onAccept ty then emit (call_onAccept (id ty)) else ret tt) in
    ret acc2
  else if truthy (requested rejectedConsents (id ty)) then
    let acc2 := load_gtag ty "denied" acc in
    let* _ := (if onReject ty then emit (call_onReject (id ty)) else ret tt) in
    ret acc2
  else ret acc.

(** [Object.values(gtagConsentUpdate).some(value => value === 'granted')] *)
Definition hasGrantedConsents (upd : gmap string string) : bool :=
  existsb (fun kv => String.eqb (snd kv) "granted") (map_to_list upd).

Definition nothing_loaded : Loaded :=
  {| load_gtagConsentUpdate := ∅; hasGtagUpdates := false; isFirstConsentLoad := false |}.

Definition runConsentCallbacksOnLoad : M unit :=
  let* acceptedConsents := getAcceptedConsents host this in
  let* rejectedConsents := getRejectedConsents host this in
  let* acc :=
    forEach_acc (consentTypes (config this))
      (load_type acceptedConsents rejectedConsents) nothing_loaded in
  let upd := load_gtagConsentUpdate acc in
  let* _ :=
    (if hasGtagUpdates acc && gtag_is_function host then
       let* _ := emit (gtag_consent_update upd) in
       if debug (config this) then emit log_gtag_updated_on_load else ret tt
     else if truthy_str (upd !! "analytics_storage") && silktide_is_function host then
       let analyticsGranted := bool_decide (upd !! "analytics_storage" = Some "granted") in
       emit (window_silktide (if analyticsGranted then "consent" else "unconsent"))
     else ret tt) in
  if hasGtagUpdates acc && hasGrantedConsents upd then
    let* _ := emit (dataLayer_push (eventName (config this))) in
    if debug (config this)
    then emit (log_gtm_sent_on_load (eventName (config this)) (isFirstConsentLoad acc))
    else ret tt
  else ret tt.

(** *** Preferences form and default consent *)

(** [updateCheckboxState()] when it only reads: [form] lists, in document
    order, the category identifier each checkbox of the preferences form
    carries; the checkbox itself belongs to the presentation layer. *)
Definition updateCheckboxState (form : list string) : M unit :=
  forEach form (fun consentId =>
    match List.find (fun ty => String.eqb (id ty) consentId) (consentTypes (config this)) with
    | None => ret tt
    | Some consentType =>
        if required consentType then ret tt
        else let* _ := getConsentChoice host this consentId in ret tt
    end).

Definition handleDefaultConsent (form : list string) : M unit :=
  forEach (consentTypes (config this)) (fun ty =>
    let accepted := required ty || defaultValue ty in
    let* _ := setConsentChoice host this (id ty) (JBool accepted) in
    let* _ :=
      (if accepted then
         if onAccept ty then emit (call_onAccept (id ty)) else ret tt
       else
         if onReject ty then emit (call_onReject (id ty)) else ret tt) in
    let* _ := setHasConsented host this in
    updateCheckboxState form).

End Lifecycle.

(** * Specification-level definitions *)

(** ** Working storage and stored choices *)

(** The storage works: the probe succeeded and no access throws. *)
Definition storage_ok (host : Host) (this : Manager) : Prop :=
  localStorageAvailable this = true /\
  (forall k, getItem_throws host k = false) /\
  (forall k v, setItem_throws host k v = false) /\
  (forall k, removeItem_throws host k = false).

(** What a migrating read returns, and what it leaves in the storage. *)
Definition read (newKey oldKey : string) (ls : gmap string string) : option string :=
  match ls !! newKey with
  | Some v => Some v
  | None => ls !! oldKey
  end.

Definition migrate (newKey oldKey : string) (ls : gmap string string)
    : gmap string string :=
  match ls !! newKey with
  | Some _ => ls
  | None =>
      match ls !! oldKey with
      | Some v => delete oldKey (<[newKey := v]> ls)
      | None => ls
      end
  end.

(** The stored choice of a category: [JNull] is Unset, [JBool true] is
    Granted, [JBool false] is Denied. *)
Definition stored_choice (this : Manager) (ls : gmap string string)
    (typeId : string) : jsval :=
  match read (_buildConsentKey this typeId) (_buildOldConsentKey this typeId) ls with
  | None => JNull
  | Some v => JBool (String.eqb v "true")
  end.

(** The tri-state choice of a category. *)
Inductive ConsentChoice := Unset | Granted | Denied.

Definition choice (this : Manager) (ls : gmap string string)
    (typeId : string) : ConsentChoice :=
  match stored_choice this ls typeId with
  | JBool true => Granted
  | JBool false => Denied
  | _ => Unset
  end.

Definition migrate_choice (this : Manager) (typeId : string)
    (ls : gmap string string) : gmap string string :=
  migrate (_buildConsentKey this typeId) (_buildOldConsentKey this typeId) ls.

Definition store_choice (this : Manager) (typeId : string) (accepted : bool)
    (ls : gmap string string) : gmap string string :=
  delete (_buildOldConsentKey this typeId)
    (<[_buildConsentKey this typeId := if accepted then "true" else "false"]> ls).

(** No legacy key of the category is waiting to be migrated. *)
Definition settled (this : Manager) (ls : gmap string string) (typeId : string) : Prop :=
  is_Some (ls !! _buildConsentKey this typeId) \/
  ls !! _buildOldConsentKey this typeId = None.

Definition migrate_all (this : Manager) (tys : list ConsentType)
    (ls : gmap string string) : gmap string string :=
  fold_left (fun ls ty => migrate_choice this (id ty) ls) tys ls.

Definition store_all (this : Manager) (chs : list Change)
    (ls : gmap string string) : gmap string string :=
  fold_left (fun ls c => store_choice this (id (type c)) (truthy (newState c)) ls)
    chs ls.

(** ** Kinds of events *)

Definition is_warning (e : event) : bool :=
  match e with console_warn _ => true | _ => false end.

Definition is_callback (e : event) : bool :=
  match e with call_onAccept _ | call_onReject _ => true | _ => false end.

Definition is_local (e : event) : bool := is_warning e || is_callback e.

Definition is_gtag (e : event) : bool :=
  match e with gtag_consent_update _ => true | _ => false end.

Definition is_push (e : event) : bool :=
  match e with dataLayer_push _ => true | _ => false end.


(** Number of events of a kind in a trace. *)
Definition count (P : event -> bool) (evs : list event) : nat :=
  length (List.filter P evs).

(** [m] returns normally from every store, and emits only events in [P]. *)
Definition returns_emitting (P : event -> bool) {A} (m : M A) : Prop :=
  forall s, exists a s' evs,
    m s = (Ok a, s', evs) /\ Forall (fun e => P e = true) evs /\
    document_scripts s' = document_scripts s.

(** The same for computations that may touch the document but not the
    storage. *)
Definition returns_keeping_storage (P : event -> bool) {A} (m : M A) : Prop :=
  forall s, exists a s' evs,
    m s = (Ok a, s', evs) /\ Forall (fun e => P e = true) evs /\
    localStorage s' = localStorage s.

(** ** The changes of a batch *)

Definition is_boolean (v : jsval) : bool :=
  match v with JBool _ => true | _ => false end.

(** Whether the requested state of a category differs from its stored
    choice ([newState !== previousState]). *)
Definition changed (this : Manager) (cs : gmap string jsval)
    (ls : gmap string string) (ty : ConsentType) : bool :=
  negb (bool_decide (requested cs (id ty) = stored_choice this ls (id ty))).

Definition mk_change (this : Manager) (cs : gmap string jsval)
    (ls : gmap string string) (ty : ConsentType) : Change :=
  {| type := ty;
     newState := requested cs (id ty);
     previousState := stored_choice this ls (id ty) |}.

(** The changed categories, in configuration order. *)
Definition changes_of (this : Manager) (cs : gmap string jsval)
    (ls : gmap string string) (tys : list ConsentType) : list Change :=
  map (mk_change this cs ls) (List.filter (changed this cs ls) tys).

Definition change_id (c : Change) : string := id (type c).

Definition consentState (v : jsval) : string :=
  if truthy v then "granted" else "denied".

(** The contribution of one change to the integration payload. *)
Definition payload_step (upd : gmap string string) (c : Change) : gmap string string :=
  match gtagParams (gtag (type c)) with
  | Some params => assign_params params (consentState (newState c)) upd
  | None => upd
  end.

Definition payload_of (chs : list Change) : gmap string string :=
  fold_left payload_step chs ∅.

Definition revokes_scripts (c : Change) : bool :=
  wasRevoked (previousState c) (newState c) && hadScripts (type c).

(** The local variables of [batchUpdateConsents] as a function of [changes]. *)
Definition summary (chs : list Change) : Detected :=
  {| changes := chs;
     gtagConsentUpdate := payload_of chs;
     hasChanges := match chs with [] => false | _ => true end;
     needsReload := existsb revokes_scripts chs |}.

(** The change lists [p] among its signal identifiers. *)
Definition lists_param (p : string) (c : Change) : bool :=
  match gtagParams (gtag (type c)) with
  | Some params => bool_decide (p ∈ params)
  | None => false
  end.

(** The change has at least one signal identifier. *)
Definition has_signals (c : Change) : bool :=
  match gtagParams (gtag (type c)) with
  | Some (_ :: _) => true
  | _ => false
  end.

(** The last change, in configuration order, that lists [p]. *)
Fixpoint last_lister (p : string) (chs : list Change) : option Change :=
  match chs with
  | [] => None
  | c :: chs' =>
      match last_lister p chs' with
      | Some c' => Some c'
      | None => if lists_param p c then Some c else None
      end
  end.

(** Some recorded change carries [undefined] as its new state. *)
Definition has_undefined (chs : list Change) : Prop :=
  exists c, c ∈ chs /\ newState c = JUndefined.

(** ** The calls a changing batch makes itself *)

Definition notify_events (host : Host) (this : Manager)
    (upd : gmap string string) : list event :=
  if bool_decide (0 < size upd) && gtag_is_function host then
    gtag_consent_update upd ::
      (if debug (config this) then [log_gtag_updated] else [])
  else if truthy_str (upd !! "analytics_storage") then
    if silktide_is_function host then
      [window_silktide
         (if bool_decide (upd !! "analytics_storage" = Some "granted")
          then "consent" else "unconsent")]
    else []
  else [].

Definition gtm_events (this : Manager) : list event :=
  dataLayer_push (eventName (config this)) ::
    (if debug (config this) then [log_gtm_sent (eventName (config this))] else []).

Definition reload_events (needsReload : bool) : list event :=
  if needsReload then [setTimeout_reload 100] else [].

(** ** Maps built category by category *)

Definition accepted_map (this : Manager) (ls : gmap string string)
    (tys : list ConsentType) (acc : gmap string jsval) : gmap string jsval :=
  fold_left (fun acc ty => <[id ty := stored_choice this ls (id ty)]> acc) tys acc.

Definition choose (accepted : bool) (consentStates : gmap string jsval)
    (ty : ConsentType) : gmap string jsval :=
  if required ty then <[id ty := JBool true]> consentStates
  else <[id ty := JBool accepted]> consentStates.

(** ** Example pages and configurations *)

Definition working_host : Host :=
  {| getItem_throws := fun _ => false;
     setItem_throws := fun _ _ => false;
     removeItem_throws := fun _ => false;
     gtag_is_function := true;
     silktide_is_function := false |}.

Definition empty_page : Store :=
  {| localStorage := ∅; document_scripts := [] |}.

Definition page_with (ls : gmap string string) : Store :=
  {| localStorage := ls; document_scripts := [] |}.

Definition tracker : ScriptConfig :=
  {| url := Some "https://example.com/tracker.js";
     load := Some "async";
     script_type := None;
     crossorigin := None;
     integrity := None |}.

Definition necessary : ConsentType :=
  {| id := "necessary"; required := true; defaultValue := true;
     scripts := None; gtag := gtag_absent; onAccept := false; onReject := false |}.

Definition analytics : ConsentType :=
  {| id := "analytics"; required := false; defaultValue := false;
     scripts := Some [tracker]; gtag := gtag_string "analytics_storage";
     onAccept := true; onReject := true |}.

Definition marketing : ConsentType :=
  {| id := "marketing"; required := false; defaultValue := false;
     scripts := None; gtag := gtag_array ["ad_storage"; "ad_user_data"];
     onAccept := false; onReject := false |}.

Definition functional : ConsentType :=
  {| id := "functional"; required := false; defaultValue := false;
     scripts := None; gtag := gtag_absent; onAccept := false; onReject := false |}.

Definition ads_a : ConsentType :=
  {| id := "a"; required := false; defaultValue := false;
     scripts := None; gtag := gtag_string "ad_storage";
     onAccept := false; onReject := false |}.

Definition ads_b : ConsentType :=
  {| id := "b"; required := false; defaultValue := false;
     scripts := None; gtag := gtag_string "ad_storage";
     onAccept := false; onReject := false |}.

Definition manager_of (tys : list ConsentType) : Manager :=
  {| config :=
       {| consentTypes := tys; namespace := None;
          eventName := "stcm_consent_update"; debug := false;
          onAcceptAll := false; onRejectAll := false |};
     localStorageAvailable := true |}.

(** The choice of [analytics] stored by an earlier version, under the legacy key. *)
Definition legacy_page : Store :=
  page_with {[ "silktideCookieChoice_analytics" := "true" ]}.

Definition granted_page : Store :=
  page_with {[ "stcm.consent.necessary" := "true";
               "stcm.consent.analytics" := "true" ]}.

Definition denied_page : Store :=
  page_with {[ "stcm.consent.necessary" := "true";
               "stcm.consent.analytics" := "false" ]}.

(** Requested states: keep [necessary], refuse [analytics]. *)
Definition refuse_analytics : gmap string jsval :=
  {[ "necessary" := JBool true; "analytics" := JBool false ]}.

Definition accept_analytics : gmap string jsval :=
  {[ "analytics" := JBool true ]}.

Definition first_choice : gmap string jsval :=
  {[ "necessary" := JBool true; "analytics" := JBool true;
     "marketing" := JBool false ]}.

Definition accept_functional : gmap string jsval :=
  {[ "functional" := JBool true ]}.

(** Requested states for two categories that share a signal identifier. *)
Definition grant_a_deny_b : gmap string jsval :=
  {[ "a" := JBool true; "b" := JBool false ]}.

(** ** Definitions for the further properties *)

Definition rejected_map (this : Manager) (ls : gmap string string)
    (tys : list ConsentType) (acc : gmap string jsval) : gmap string jsval :=
  fold_left
    (fun acc ty =>
       <[id ty := JBool (bool_decide (stored_choice this ls (id ty) = JBool false))]> acc)
    tys acc.


(** Removing the keys of a list, except those whose removal throws. *)
Definition remove_keys (host : Host) (keys : list string)
    (ls : gmap string string) : gmap string string :=
  fold_left
    (fun ls key => if removeItem_throws host key then ls else delete key ls)
    keys ls.

Definition has_src (u : string) (el : ScriptElement) : bool :=
  String.eqb (el_src el) u.


(** The warnings of a sequence of removals. *)
Definition removal_warnings (host : Host) (keys : list string) : list event :=
  flat_map (fun key => if removeItem_throws host key then [warn_remove] else []) keys.

(** A storage that holds choices of both key families, a flag, and a key of
    the host page. *)
Definition mixed_page : Store :=
  page_with {[ "silktideCookieChoice_analytics_shop" := "true";
               "stcm.consent.analytics" := "false";
               "stcm.hasConsented" := "1";
               "theme" := "dark" ]}.

Definition shop_manager : Manager :=
  {| config :=
       {| consentTypes := [necessary; analytics]; namespace := Some "shop";
          eventName := "stcm_consent_update"; debug := false;
          onAcceptAll := false; onRejectAll := false |};
     localStorageAvailable := true |}.


(** The element [_injectScript] creates for a descriptor with URL [u]. *)
Definition new_script (sc : ScriptConfig) (consentId u : string) : ScriptElement :=
  {| el_src := u;
     el_consentId := consentId;
     el_async := bool_decide (load sc = Some "async");
     el_defer := bool_decide (load sc = Some "defer");
     el_type := if truthy_str (script_type sc) then script_type sc else None;
     el_crossOrigin := if truthy_str (crossorigin sc) then crossorigin sc else None;
     el_integrity := if truthy_str (integrity sc) then integrity sc else None |}.

(** The descriptor has no usable [url]. *)
Definition url_missing (sc : ScriptConfig) : bool :=
  match url sc with
  | Some u => String.eqb u ""
  | None => true
  end.

(** The document after [_injectScript]. *)
Definition inject_one (consentId : string) (doc : list ScriptElement)
    (sc : ScriptConfig) : list ScriptElement :=
  match url sc with
  | Some u =>
      if String.eqb u "" then doc
      else if existsb (has_src u) doc then doc
      else doc ++ [new_script sc consentId u]
  | None => doc
  end.

Definition inject_all (consentId : string) (l : list ScriptConfig)
    (doc : list ScriptElement) : list ScriptElement :=
  fold_left (inject_one consentId) l doc.

Definition set_document (f : list ScriptElement -> list ScriptElement)
    (s : Store) : Store :=
  {| localStorage := localStorage s; document_scripts := f (document_scripts s) |}.

Definition missing_url_warnings (l : list ScriptConfig) : list event :=
  flat_map (fun sc => if url_missing sc then [warn_script_url] else []) l.

(** The descriptors of a category ([[]] when it has no [scripts] array). *)
Definition descriptors (ty : ConsentType) : list ScriptConfig :=
  default [] (scripts ty).

(** The callback the third pass of [batchUpdateConsents] runs for a change. *)
Definition callback_of (c : Change) : list event :=
  if truthy (newState c) then
    if onAccept (type c) then [call_onAccept (id (type c))] else []
  else
    if onReject (type c) then [call_onReject (id (type c))] else [].

(** What the third pass emits for a change: the warnings of the script
    injection of a category turned on, then the callback. *)
Definition third_events_of (c : Change) : list event :=
  (if truthy (newState c) then missing_url_warnings (descriptors (type c)) else [])
  ++ callback_of c.

Definition third_events (chs : list Change) : list event :=
  flat_map third_events_of chs.

(** The document after the third pass. *)
Definition inject_changes (chs : list Change) (doc : list ScriptElement)
    : list ScriptElement :=
  fold_left
    (fun doc c =>
       if truthy (newState c)
       then inject_all (id (type c)) (descriptors (type c)) doc else doc)
    chs doc.

(** The whole of a batched update on a working storage, for requested
    states that are booleans. *)
Definition batch_outcome (host : Host) (this : Manager) (cs : gmap string jsval)
    (s : Store) : Result bool * Store * list event :=
  let tys := consentTypes (config this) in
  let chs := changes_of this cs (localStorage s) tys in
  match chs with
  | [] => (Ok false, set_localStorage (migrate_all this tys) s, [])
  | _ :: _ =>
      (Ok true,
       set_document (inject_changes chs)
         (set_localStorage (fun ls => store_all this chs (migrate_all this tys ls)) s),
       notify_events host this (payload_of chs) ++ gtm_events this ++
       third_events chs ++ reload_events (existsb revokes_scripts chs))
  end.

(** A key that is the consent key of no category, in either family. *)
Definition foreign_key (this : Manager) (k : string) : Prop :=
  forall x, k <> _buildConsentKey this x /\ k <> _buildOldConsentKey this x.



(** ** Page load *)












Definition is_silktide (e : event) : bool :=
  match e with window_silktide _ => true | _ => false end.






(** ** Per-category integration and default consent *)

(** What [triggerConsentIntegration] emits. *)
Definition trigger_events (host : Host) (this : Manager) (ty : ConsentType)
    (accepted : jsval) : list event :=
  match gtagParams (gtag ty) with
  | None => []
  | Some params =>
      (if gtag_is_function host then
         [gtag_consent_update (assign_params params (consentState accepted) ∅)]
       else if bool_decide ("analytics_storage" ∈ params) && silktide_is_function host
       then [window_silktide (if truthy accepted then "consent" else "unconsent")]
       else []) ++
      [dataLayer_push (eventName (config this))]
  end.





(** The storage after [updateCheckboxState] has read the choices of the
    checkboxes of the form. *)
Definition form_reads (this : Manager) (form : list string)
    (ls : gmap string string) : gmap string string :=
  fold_left
    (fun ls consentId =>
       match List.find (fun ty => String.eqb (id ty) consentId)
               (consentTypes (config this)) with
       | Some ty => if required ty then ls else migrate_choice this consentId ls
       | None => ls
       end)
    form ls.

(** The storage after [handleDefaultConsent] has passed a category. *)
Definition default_step (this : Manager) (form : list string)
    (ls : gmap string string) (ty : ConsentType) : gmap string string :=
  form_reads this form
    (delete (_buildOldHasConsentedKey this)
       (<[_buildHasConsentedKey this := "1"]>
          (store_choice this (id ty) (required ty || defaultValue ty) ls))).

Definition default_callback (ty : ConsentType) : list event :=
  if required ty || defaultValue ty
  then (if onAccept ty then [call_onAccept (id ty)] else [])
  else (if onReject ty then [call_onReject (id ty)] else []).



(** * Properties *)

(** ** Keys *)

Lemma length_append (a b : string) :
  String.length (a +:+ b) = String.length a + String.length b.
Proof. induction a as [|c a IH]; simpl; [reflexivity | by rewrite IH]. Qed.

Lemma append_inj_r (a b suffix : string) :
  a +:+ suffix = b +:+ suffix -> a = b.
Proof.
  revert b. induction a as [|c a IH]; intros [|d b] H.
  - reflexivity.
  - apply (f_equal String.length) in H.
    rewrite !length_append in H. simpl in H. lia.
  - apply (f_equal String.length) in H.
    rewrite !length_append in H. simpl in H. lia.
  - injection H as -> H. f_equal. by apply IH.
Qed.

Section Keys.

Variable this : Manager.

Lemma consent_key_inj a b :
  _buildConsentKey this a = _buildConsentKey this b -> a = b.
Proof.
  unfold _buildConsentKey. intros H.
  by repeat (apply String.app_inj in H).
Qed.

Lemma old_consent_key_inj a b :
  _buildOldConsentKey this a = _buildOldConsentKey this b -> a = b.
Proof.
  unfold _buildOldConsentKey. intros H.
  apply String.app_inj in H. by apply append_inj_r in H.
Qed.

Lemma consent_key_not_old a b :
  _buildConsentKey this a <> _buildOldConsentKey this b.
Proof. unfold _buildConsentKey, _buildOldConsentKey. intros H. inversion H. Qed.

Lemma hasConsented_key_not_old :
  _buildHasConsentedKey this <> _buildOldHasConsentedKey this.
Proof.
  unfold _buildHasConsentedKey, _buildOldHasConsentedKey. intros H. inversion H.
Qed.

End Keys.

(** ** The storage adapter on an arbitrary host *)

Section Adapter.

Variable host : Host.
Variable this : Manager.

Lemma set_localStorage_id s : set_localStorage (fun ls => ls) s = s.
Proof. by destruct s. Qed.

Lemma set_localStorage_same f s :
  f (localStorage s) = localStorage s -> set_localStorage f s = s.
Proof. destruct s; unfold set_localStorage; simpl; by intros ->. Qed.

Lemma set_localStorage_compose f g s :
  set_localStorage g (set_localStorage f s) = set_localStorage (fun ls => g (f ls)) s.
Proof. reflexivity. Qed.

Lemma _getLocalStorageItem_eq key s :
  _getLocalStorageItem host this key s =
    if localStorageAvailable this then
      if getItem_throws host key then (Ok None, s, [warn_read])
      else (Ok (localStorage s !! key), s, [])
    else (Ok None, s, []).
Proof.
  unfold _getLocalStorageItem, try_catch, localStorage_getItem.
  destruct (localStorageAvailable this); [|reflexivity]. simpl.
  by destruct (getItem_throws host key).
Qed.

Lemma _setLocalStorageItem_eq key value s :
  _setLocalStorageItem host this key value s =
    if localStorageAvailable this then
      if setItem_throws host key value then (Ok false, s, [warn_write])
      else (Ok true, set_localStorage (insert key value) s, [])
    else (Ok false, s, []).
Proof.
  unfold _setLocalStorageItem, try_catch, localStorage_setItem, bind.
  destruct (localStorageAvailable this); [|reflexivity]. simpl.
  by destruct (setItem_throws host key value).
Qed.

Lemma _removeLocalStorageItem_eq key s :
  _removeLocalStorageItem host this key s =
    if localStorageAvailable this then
      if removeItem_throws host key then (Ok false, s, [warn_remove])
      else (Ok true, set_localStorage (delete key) s, [])
    else (Ok false, s, []).
Proof.
  unfold _removeLocalStorageItem, try_catch, localStorage_removeItem, bind.
  destruct (localStorageAvailable this); [|reflexivity]. simpl.
  by destruct (removeItem_throws host key).
Qed.

Lemma _checkLocalStorageAvailable_eq s :
  _checkLocalStorageAvailable host s =
    if setItem_throws host testKey "1" then (Ok false, s, [warn_unavailable])
    else if removeItem_throws host testKey then
      (Ok false, set_localStorage (insert testKey "1") s, [warn_unavailable])
    else
      (Ok true, set_localStorage (fun ls => delete testKey (<[testKey := "1"]> ls)) s, []).
Proof.
  unfold _checkLocalStorageAvailable, try_catch, bind,
    localStorage_setItem, localStorage_removeItem.
  destruct (setItem_throws host testKey "1"); [reflexivity|].
  by destruct (removeItem_throws host testKey).
Qed.

End Adapter.

(** ** The store on a working storage *)

Lemma read_migrate_same n o ls :
  n <> o -> read n o (migrate n o ls) = read n o ls.
Proof.
  intros Hne. unfold read, migrate.
  destruct (ls !! n) eqn:Hn; [by rewrite Hn|].
  destruct (ls !! o) eqn:Ho; [|by rewrite Hn, Ho].
  by rewrite lookup_delete_ne, lookup_insert_eq by done.
Qed.

Lemma read_migrate_other n o n' o' ls :
  n' <> n -> n' <> o -> o' <> n -> o' <> o ->
  read n' o' (migrate n o ls) = read n' o' ls.
Proof.
  intros H1 H2 H3 H4. unfold read, migrate.
  destruct (ls !! n) eqn:Hn; [done|].
  destruct (ls !! o) eqn:Ho; [|done].
  by rewrite !lookup_delete_ne, !lookup_insert_ne by done.
Qed.

Lemma stored_choice_migrate this a b ls :
  stored_choice this (migrate_choice this a ls) b = stored_choice this ls b.
Proof.
  unfold stored_choice, migrate_choice.
  destruct (decide (a = b)) as [->|Hab].
  - rewrite read_migrate_same; [done | apply consent_key_not_old].
  - rewrite read_migrate_other; [done|..].
    + intros H. by apply consent_key_inj in H.
    + apply consent_key_not_old.
    + intros H. symmetry in H. by apply consent_key_not_old in H.
    + intros H. by apply old_consent_key_inj in H.
Qed.

Lemma stored_choice_store_same this a v ls :
  stored_choice this (store_choice this a v ls) a = JBool v.
Proof.
  unfold stored_choice, store_choice, read.
  rewrite lookup_delete_ne, lookup_insert_eq
    by (intros H; symmetry in H; by apply consent_key_not_old in H).
  by destruct v.
Qed.

Lemma stored_choice_store_other this a b v ls :
  a <> b ->
  stored_choice this (store_choice this a v ls) b = stored_choice this ls b.
Proof.
  intros Hab. unfold stored_choice, store_choice, read.
  assert (_buildConsentKey this a <> _buildConsentKey this b) as H1
    by (intros H; by apply consent_key_inj in H).
  assert (_buildOldConsentKey this a <> _buildOldConsentKey this b) as H2
    by (intros H; by apply old_consent_key_inj in H).
  assert (_buildOldConsentKey this a <> _buildConsentKey this b) as H3
    by (intros H; symmetry in H; by apply consent_key_not_old in H).
  assert (_buildConsentKey this a <> _buildOldConsentKey this b) as H4
    by apply consent_key_not_old.
  by rewrite !lookup_delete_ne, !lookup_insert_ne by done.
Qed.

Section Working.

Variable host : Host.
Variable this : Manager.
Hypothesis Hok : storage_ok host this.

Lemma get_ok key s :
  _getLocalStorageItem host this key s = (Ok (localStorage s !! key), s, []).
Proof.
  destruct Hok as (Ha & Hg & _). rewrite _getLocalStorageItem_eq.
  by rewrite Ha, Hg.
Qed.

Lemma set_ok key value s :
  _setLocalStorageItem host this key value s =
    (Ok true, set_localStorage (insert key value) s, []).
Proof.
  destruct Hok as (Ha & _ & Hs & _). rewrite _setLocalStorageItem_eq.
  by rewrite Ha, Hs.
Qed.

Lemma remove_ok key s :
  _removeLocalStorageItem host this key s =
    (Ok true, set_localStorage (delete key) s, []).
Proof.
  destruct Hok as (Ha & _ & _ & Hr). rewrite _removeLocalStorageItem_eq.
  by rewrite Ha, Hr.
Qed.

Lemma read_migrating_ok n o s :
  read_migrating host this n o s =
    (Ok (read n o (localStorage s)), set_localStorage (migrate n o) s, []).
Proof.
  unfold read_migrating, bind, read, migrate. rewrite get_ok.
  destruct s as [ls doc]; simpl.
  destruct (ls !! n) eqn:Hn.
  - unfold ret, set_localStorage; simpl. by rewrite Hn.
  - rewrite get_ok; simpl.
    destruct (ls !! o) eqn:Ho.
    + rewrite set_ok, remove_ok. unfold ret, set_localStorage; simpl.
      by rewrite Hn, Ho.
    + unfold ret, set_localStorage; simpl. by rewrite Hn, Ho.
Qed.

Lemma getConsentChoice_ok typeId s :
  getConsentChoice host this typeId s =
    (Ok (stored_choice this (localStorage s) typeId),
     set_localStorage (migrate_choice this typeId) s, []).
Proof.
  unfold getConsentChoice, bind. rewrite read_migrating_ok.
  unfold stored_choice, ret. simpl.
  by destruct (read _ _ _).
Qed.

Lemma setConsentChoice_ok typeId b s :
  setConsentChoice host this typeId (JBool b) s =
    (Ok tt, set_localStorage (store_choice this typeId b) s, []).
Proof.
  unfold setConsentChoice, bind, store_choice.
  destruct s as [ls doc].
  destruct b; unfold toString, ret; rewrite set_ok, get_ok; simpl;
    match goal with
    | |- context [ (<[?k := ?v]> ls) !! ?o ] =>
        destruct ((<[k := v]> ls) !! o) eqn:Ho
    end;
    try rewrite remove_ok; unfold set_localStorage; simpl;
    try rewrite (delete_id _ _ Ho); reflexivity.
Qed.

End Working.

(** ** Footprints of computations *)

Lemma count_app P evs1 evs2 : count P (evs1 ++ evs2) = count P evs1 + count P evs2.
Proof. unfold count. by rewrite List.filter_app, length_app. Qed.

Lemma count_none (P Q : event -> bool) evs :
  (forall e, Q e = true -> P e = false) ->
  Forall (fun e => Q e = true) evs -> count P evs = 0.
Proof.
  intros HPQ H. unfold count. induction H as [|e evs He _ IH]; simpl; [done|].
  by rewrite (HPQ e He).
Qed.

Lemma bind_run {A B} (m : M A) (k : A -> M B) s a s1 ev1 :
  m s = (Ok a, s1, ev1) ->
  bind m k s = (result_of (k a s1), store_of (k a s1), ev1 ++ events_of (k a s1)).
Proof.
  intros H. unfold bind. rewrite H.
  by destruct (k a s1) as [[r s2] ev2].
Qed.

Lemma bind_step {A B} (m : M A) (k : A -> M B) s a s1 ev1 r s2 ev2 :
  m s = (Ok a, s1, ev1) -> k a s1 = (r, s2, ev2) ->
  bind m k s = (r, s2, ev1 ++ ev2).
Proof. intros H1 H2. unfold bind. by rewrite H1, H2. Qed.

Lemma bind_silent {A B} (m : M A) (k : A -> M B) s a s1 :
  m s = (Ok a, s1, []) -> bind m k s = k a s1.
Proof. intros H. unfold bind. rewrite H. by destruct (k a s1) as [[r s2] ev2]. Qed.

Lemma bind_throw {A B} (m : M A) (k : A -> M B) s e s1 ev1 :
  m s = (Throw e, s1, ev1) -> bind m k s = (Throw e, s1, ev1).
Proof. intros H. unfold bind. by rewrite H. Qed.

Section Footprint.

Context {P : event -> bool}.

Lemma re_ret {A} (a : A) : returns_emitting P (ret a).
Proof. intros s. by exists a, s, []. Qed.

Lemma re_emit e : P e = true -> returns_emitting P (emit e).
Proof. intros He s. exists tt, s, [e]. repeat split; auto. Qed.

Lemma re_bind {A B} (m : M A) (k : A -> M B) :
  returns_emitting P m -> (forall a, returns_emitting P (k a)) ->
  returns_emitting P (bind m k).
Proof.
  intros Hm Hk s.
  destruct (Hm s) as (a & s1 & ev1 & Em & F1 & D1).
  destruct (Hk a s1) as (b & s2 & ev2 & Ek & F2 & D2).
  exists b, s2, (ev1 ++ ev2). rewrite (bind_run _ _ _ _ _ _ Em), Ek. simpl.
  repeat split; [by apply Forall_app | congruence].
Qed.

Lemma re_forEach {A} (l : list A) (f : A -> M unit) :
  (forall x, returns_emitting P (f x)) -> returns_emitting P (forEach l f).
Proof.
  intros Hf. induction l as [|x l IH]; simpl.
  - apply re_ret.
  - apply re_bind; auto.
Qed.

Lemma re_forEach_acc {A B} (l : list A) (f : B -> A -> M B) acc :
  (forall b x, returns_emitting P (f b x)) ->
  returns_emitting P (forEach_acc l f acc).
Proof.
  intros Hf. revert acc. induction l as [|x l IH]; intros acc; simpl.
  - apply re_ret.
  - apply re_bind; auto.
Qed.

Lemma rk_ret {A} (a : A) : returns_keeping_storage P (ret a).
Proof. intros s. by exists a, s, []. Qed.

Lemma rk_emit e : P e = true -> returns_keeping_storage P (emit e).
Proof. intros He s. exists tt, s, [e]. repeat split; auto. Qed.

Lemma rk_bind {A B} (m : M A) (k : A -> M B) :
  returns_keeping_storage P m -> (forall a, returns_keeping_storage P (k a)) ->
  returns_keeping_storage P (bind m k).
Proof.
  intros Hm Hk s.
  destruct (Hm s) as (a & s1 & ev1 & Em & F1 & D1).
  destruct (Hk a s1) as (b & s2 & ev2 & Ek & F2 & D2).
  exists b, s2, (ev1 ++ ev2). rewrite (bind_run _ _ _ _ _ _ Em), Ek. simpl.
  repeat split; [by apply Forall_app | congruence].
Qed.

Lemma rk_forEach {A} (l : list A) (f : A -> M unit) :
  (forall x, returns_keeping_storage P (f x)) ->
  returns_keeping_storage P (forEach l f).
Proof.
  intros Hf. induction l as [|x l IH]; simpl.
  - apply rk_ret.
  - apply rk_bind; auto.
Qed.

End Footprint.

(** ** What the first pass computes *)

Lemma compare_summary cs chs ty prev :
  compare cs (summary chs) ty prev =
    if bool_decide (requested cs (id ty) = prev) then summary chs
    else summary (chs ++
           [{| type := ty; newState := requested cs (id ty); previousState := prev |}]).
Proof.
  unfold compare. case_bool_decide; [done|].
  unfold summary; simpl. f_equal.
  - unfold payload_of. rewrite fold_left_app. simpl. unfold payload_step. simpl.
    by destruct (gtagParams (gtag ty)).
  - by destruct chs.
  - rewrite existsb_app. simpl. unfold revokes_scripts. simpl.
    destruct (wasRevoked prev (requested cs (id ty)) && hadScripts ty); simpl.
    + by rewrite orb_true_r.
    + by rewrite orb_false_r.
Qed.

Lemma compare_is_summary cs d ty prev :
  d = summary (changes d) ->
  compare cs d ty prev = summary (changes (compare cs d ty prev)).
Proof.
  intros ->. simpl. rewrite compare_summary. by case_bool_decide.
Qed.

Lemma forEach_acc_invariant {A B} (I : B -> Prop) (l : list A) (f : B -> A -> M B) :
  (forall b x s b' s' ev, I b -> f b x s = (Ok b', s', ev) -> I b') ->
  forall acc s b' s' ev,
    I acc -> forEach_acc l f acc s = (Ok b', s', ev) -> I b'.
Proof.
  intros Hf. induction l as [|x l IH]; intros acc s b' s' ev Hacc Hrun; simpl in Hrun.
  - unfold ret in Hrun. by inversion Hrun; subst.
  - unfold bind in Hrun.
    destruct (f acc x s) as [[[b1|e] s1] ev1] eqn:Hfx; [|discriminate].
    destruct (forEach_acc l f b1 s1) as [[r2 s2] ev2] eqn:Hrest.
    inversion Hrun; subst. eapply IH; [|exact Hrest]. eauto.
Qed.

Section AnyHost.

Variable host : Host.
Variable this : Manager.

Lemma re_get key : returns_emitting is_warning (_getLocalStorageItem host this key).
Proof.
  intros s. rewrite _getLocalStorageItem_eq.
  destruct (localStorageAvailable this), (getItem_throws host key);
    eexists _, _, _; repeat split; eauto.
Qed.

Lemma re_set key value :
  returns_emitting is_warning (_setLocalStorageItem host this key value).
Proof.
  intros s. rewrite _setLocalStorageItem_eq.
  destruct (localStorageAvailable this), (setItem_throws host key value);
    eexists _, _, _; repeat split; eauto.
Qed.

Lemma re_remove key :
  returns_emitting is_warning (_removeLocalStorageItem host this key).
Proof.
  intros s. rewrite _removeLocalStorageItem_eq.
  destruct (localStorageAvailable this), (removeItem_throws host key);
    eexists _, _, _; repeat split; eauto.
Qed.

Lemma re_read_migrating n o :
  returns_emitting is_warning (read_migrating host this n o).
Proof.
  unfold read_migrating. apply re_bind; [apply re_get|].
  intros [v|]; [apply re_ret|].
  apply re_bind; [apply re_get|].
  intros [v|]; [|apply re_ret].
  apply re_bind; [apply re_set|]. intros _.
  apply re_bind; [apply re_remove|]. intros _. apply re_ret.
Qed.

Lemma re_getConsentChoice typeId :
  returns_emitting is_warning (getConsentChoice host this typeId).
Proof.
  unfold getConsentChoice. apply re_bind; [apply re_read_migrating|].
  intros v. apply re_ret.
Qed.

Lemma re_setConsentChoice typeId b :
  returns_emitting is_warning (setConsentChoice host this typeId (JBool b)).
Proof.
  unfold setConsentChoice. apply re_bind.
  { destruct b; apply re_ret. }
  intros str. apply re_bind; [apply re_set|]. intros _.
  apply re_bind; [apply re_get|].
  intros [v|]; [|apply re_ret].
  apply re_bind; [apply re_remove|]. intros _. apply re_ret.
Qed.

Lemma re_first_pass cs : returns_emitting is_warning (first_pass host this cs).
Proof.
  unfold first_pass. apply re_forEach_acc. intros d ty. unfold detect.
  apply re_bind; [apply re_getConsentChoice|]. intros v. apply re_ret.
Qed.

Lemma first_pass_summary cs s d s1 ev1 :
  first_pass host this cs s = (Ok d, s1, ev1) -> d = summary (changes d).
Proof.
  unfold first_pass.
  apply (forEach_acc_invariant (fun d => d = summary (changes d))); [|done].
  intros b x s0 b' s' ev Hb Hrun. unfold detect, bind in Hrun.
  destruct (getConsentChoice host this (id x) s0) as [[[prev|e] s2] ev2];
    [|discriminate].
  unfold ret in Hrun. inversion Hrun; subst. by apply compare_is_summary.
Qed.

End AnyHost.

(** ** The shape of a batched update *)

Section Shape.

Variable host : Host.
Variable this : Manager.

Lemma notify_integration_run upd s :
  notify_integration host this upd s = (Ok tt, s, notify_events host this upd).
Proof.
  unfold notify_integration, notify_events.
  destruct (bool_decide (0 < size upd) && gtag_is_function host).
  - by destruct (debug (config this)).
  - destruct (truthy_str (upd !! "analytics_storage")); [|done].
    by destruct (silktide_is_function host).
Qed.

Lemma fire_gtm_event_run s :
  fire_gtm_event this s = (Ok tt, s, gtm_events this).
Proof. unfold fire_gtm_event, gtm_events. by destruct (debug (config this)). Qed.

Lemma re_second_pass chs :
  Forall (fun c => is_boolean (newState c) = true) chs ->
  returns_emitting is_warning (second_pass host this chs).
Proof.
  unfold second_pass. induction 1 as [|c chs Hc _ IH]; simpl.
  - apply re_ret.
  - apply re_bind; [|by intros _].
    destruct (newState c) as [| |b]; try discriminate.
    apply re_setConsentChoice.
Qed.

Lemma rk_injectScript scriptConfig consentId :
  returns_keeping_storage is_local (_injectScript scriptConfig consentId).
Proof.
  unfold _injectScript. destruct (url scriptConfig) as [u|]; [|by apply rk_emit].
  destruct (String.eqb u ""); [by apply rk_emit|].
  intros s. destruct (existsb _ (document_scripts s));
    eexists _, _, _; repeat split; eauto.
Qed.

Lemma rk_third_pass chs : returns_keeping_storage is_local (third_pass chs).
Proof.
  unfold third_pass. apply rk_forEach. intros c.
  destruct (truthy (newState c)).
  - apply rk_bind.
    + unfold _injectConsentScripts. destruct (scripts (type c)); [|apply rk_ret].
      apply rk_forEach. intros sc. apply rk_injectScript.
    + intros _. destruct (onAccept (type c)); [by apply rk_emit | apply rk_ret].
  - destruct (onReject (type c)); [by apply rk_emit | apply rk_ret].
Qed.

Lemma batch_unchanged cs s d s1 ev1 :
  first_pass host this cs s = (Ok d, s1, ev1) ->
  hasChanges d = false ->
  batchUpdateConsents host this cs s = (Ok false, s1, ev1).
Proof.
  intros H1 Hd. unfold batchUpdateConsents.
  rewrite <- (app_nil_r ev1). eapply bind_step; [exact H1|]. by rewrite Hd.
Qed.

Lemma batch_changed cs s d s1 ev1 s2 ev2 s3 ev3 :
  first_pass host this cs s = (Ok d, s1, ev1) ->
  hasChanges d = true ->
  second_pass host this (changes d) s1 = (Ok tt, s2, ev2) ->
  third_pass (changes d) s2 = (Ok tt, s3, ev3) ->
  batchUpdateConsents host this cs s =
    (Ok true, s3,
     ev1 ++ ev2 ++ notify_events host this (gtagConsentUpdate d) ++
     gtm_events this ++ ev3 ++ reload_events (needsReload d)).
Proof.
  intros H1 Hd H2 H3. unfold batchUpdateConsents.
  eapply bind_step; [exact H1|]. rewrite Hd. cbn [negb].
  eapply bind_step; [exact H2|].
  eapply bind_step; [apply notify_integration_run|].
  eapply bind_step; [apply fire_gtm_event_run|].
  eapply bind_step; [exact H3|].
  unfold reload_events. destruct (needsReload d); reflexivity.
Qed.

Lemma batch_throws cs s d s1 ev1 e s2 ev2 :
  first_pass host this cs s = (Ok d, s1, ev1) ->
  hasChanges d = true ->
  second_pass host this (changes d) s1 = (Throw e, s2, ev2) ->
  batchUpdateConsents host this cs s = (Throw e, s2, ev1 ++ ev2).
Proof.
  intros H1 Hd H2. unfold batchUpdateConsents.
  eapply bind_step; [exact H1|]. rewrite Hd. cbn [negb].
  by apply bind_throw.
Qed.

End Shape.

(** ** A batched update on a working storage *)

Lemma stored_choice_migrate_all this tys ls x :
  stored_choice this (migrate_all this tys ls) x = stored_choice this ls x.
Proof.
  unfold migrate_all. revert ls. induction tys as [|ty tys IH]; intros ls; simpl.
  - reflexivity.
  - by rewrite IH, stored_choice_migrate.
Qed.

Lemma changes_of_ext this cs ls1 ls2 tys :
  (forall x, stored_choice this ls1 x = stored_choice this ls2 x) ->
  changes_of this cs ls1 tys = changes_of this cs ls2 tys.
Proof.
  intros H.
  assert (forall ty, changed this cs ls1 ty = changed this cs ls2 ty) as Hc
    by (intros ty; unfold changed; by rewrite H).
  assert (forall ty, mk_change this cs ls1 ty = mk_change this cs ls2 ty) as Hm
    by (intros ty; unfold mk_change; by rewrite H).
  unfold changes_of.
  induction tys as [|ty tys IH]; simpl; [done|].
  rewrite Hc. destruct (changed this cs ls2 ty); simpl; by rewrite ?Hm, IH.
Qed.

Section WorkingBatch.

Variable host : Host.
Variable this : Manager.
Hypothesis Hok : storage_ok host this.

Lemma detect_ok cs chs ty s :
  detect host this cs (summary chs) ty s =
    (Ok (summary (chs ++ changes_of this cs (localStorage s) [ty])),
     set_localStorage (migrate_choice this (id ty)) s, []).
Proof.
  unfold detect.
  rewrite (bind_silent _ _ _ _ _ (getConsentChoice_ok host this Hok _ _)).
  unfold ret. rewrite compare_summary.
  unfold changes_of, changed; simpl.
  case_bool_decide; simpl; [by rewrite app_nil_r | done].
Qed.

Lemma forEach_acc_detect_ok cs tys chs s :
  forEach_acc tys (detect host this cs) (summary chs) s =
    (Ok (summary (chs ++ changes_of this cs (localStorage s) tys)),
     set_localStorage (migrate_all this tys) s, []).
Proof.
  revert chs s. induction tys as [|ty tys IH]; intros chs s; simpl.
  - unfold ret, changes_of; simpl. by rewrite app_nil_r, set_localStorage_id.
  - rewrite (bind_silent _ _ _ _ _ (detect_ok _ _ _ _)).
    rewrite IH. simpl. rewrite <- app_assoc. repeat f_equal.
    change (ty :: tys) with ([ty] ++ tys).
    unfold changes_of at 3. rewrite List.filter_app, map_app.
    fold (changes_of this cs (localStorage s) [ty]).
    fold (changes_of this cs (localStorage s) tys).
    f_equal. apply changes_of_ext. intros x. apply stored_choice_migrate.
Qed.

Lemma first_pass_ok cs s :
  first_pass host this cs s =
    (Ok (summary (changes_of this cs (localStorage s) (consentTypes (config this)))),
     set_localStorage (migrate_all this (consentTypes (config this))) s, []).
Proof. unfold first_pass. apply (forEach_acc_detect_ok cs _ []). Qed.

Lemma second_pass_ok chs s :
  Forall (fun c => is_boolean (newState c) = true) chs ->
  second_pass host this chs s =
    (Ok tt, set_localStorage (store_all this chs) s, []).
Proof.
  unfold second_pass. intros H. revert s.
  induction H as [|c chs Hc _ IH]; intros s; simpl.
  - by rewrite set_localStorage_id.
  - destruct (newState c) as [| |b] eqn:Hn; try discriminate.
    rewrite (bind_silent _ _ _ _ _ (setConsentChoice_ok host this Hok _ _ _)).
    rewrite IH. unfold store_all; simpl. by rewrite Hn.
Qed.

End WorkingBatch.

(** * Properties of the specification *)

Lemma working_host_ok tys : storage_ok working_host (manager_of tys).
Proof. by repeat split. Qed.

(** ** C9: the storage adapter never throws *)

(** C9.  The adapter operations return normally on every host and every
    store.  Availability is probed at construction by writing and deleting
    a throwaway key, and the instance keeps the outcome; when the probe
    failed, a read returns [null] and a write or removal returns [false],
    with no effect at all; when storage is available but the access
    throws, the exception is caught, one warning is logged, and [null] or
    [false] is returned with the storage untouched. *)
Theorem C9_storage_adapter_never_throws
    (host : Host) (this : Manager) (key value : string) (s : Store) :
  _getLocalStorageItem host this key s =
    (if localStorageAvailable this then
       if getItem_throws host key then (Ok None, s, [warn_read])
       else (Ok (localStorage s !! key), s, [])
     else (Ok None, s, [])) /\
  _setLocalStorageItem host this key value s =
    (if localStorageAvailable this then
       if setItem_throws host key value then (Ok false, s, [warn_write])
       else (Ok true, set_localStorage (insert key value) s, [])
     else (Ok false, s, [])) /\
  _removeLocalStorageItem host this key s =
    (if localStorageAvailable this then
       if removeItem_throws host key then (Ok false, s, [warn_remove])
       else (Ok true, set_localStorage (delete key) s, [])
     else (Ok false, s, [])) /\
  (exists available s' evs,
     _checkLocalStorageAvailable host s = (Ok available, s', evs) /\
     available =
       negb (setItem_throws host testKey "1") &&
       negb (removeItem_throws host testKey) /\
     forall arg,
       match _validateConfig arg with
       | Ok _ =>
           exists cfg,
             constructor host arg s =
               (Ok {| config := cfg; localStorageAvailable := available |}, s', evs)
       | Throw e => constructor host arg s = (Throw e, s, [])
       end).
Proof.
  split; [apply _getLocalStorageItem_eq|].
  split; [apply _setLocalStorageItem_eq|].
  split; [apply _removeLocalStorageItem_eq|].
  destruct (_checkLocalStorageAvailable host s) as [[r s'] evs] eqn:Hprobe.
  assert (r = Ok (negb (setItem_throws host testKey "1") &&
                  negb (removeItem_throws host testKey))) as ->.
  { rewrite _checkLocalStorageAvailable_eq in Hprobe.
    destruct (setItem_throws host testKey "1"), (removeItem_throws host testKey);
      by inversion Hprobe. }
  eexists _, s', evs. split; [reflexivity|]. split; [reflexivity|].
  intros [c|]; [|reflexivity].
  unfold constructor, bind, lift, _validateConfig.
  destruct (arg_consentTypes c) as [[|ty tys]|]; try reflexivity.
  eexists. rewrite Hprobe. unfold ret. simpl. rewrite app_nil_r. reflexivity.
Qed.

(** ** C3: migration on read *)

(** C3.  On a working storage, when the current key of a category is absent
    and its legacy key holds ["true"], [getConsentChoice] returns [true],
    leaves ["true"] under the current key and no legacy key; a second call
    returns [true] again and leaves the storage as it found it. *)
Theorem C3_migration_on_read
    (host : Host) (this : Manager) (typeId : string) (s : Store) :
  storage_ok host this ->
  localStorage s !! _buildConsentKey this typeId = None ->
  localStorage s !! _buildOldConsentKey this typeId = Some "true" ->
  let r1 := getConsentChoice host this typeId s in
  result_of r1 = Ok (JBool true) /\
  events_of r1 = [] /\
  localStorage (store_of r1) =
    delete (_buildOldConsentKey this typeId)
      (<[_buildConsentKey this typeId := "true"]> (localStorage s)) /\
  localStorage (store_of r1) !! _buildConsentKey this typeId = Some "true" /\
  localStorage (store_of r1) !! _buildOldConsentKey this typeId = None /\
  getConsentChoice host this typeId (store_of r1) =
    (Ok (JBool true), store_of r1, []).
Proof.
  intros Hok Hnew Hold r1. subst r1.
  rewrite (getConsentChoice_ok host this Hok).
  unfold result_of, store_of, events_of. cbn [fst snd].
  set (s1 := set_localStorage (migrate_choice this typeId) s).
  assert (localStorage s1 =
          delete (_buildOldConsentKey this typeId)
            (<[_buildConsentKey this typeId := "true"]> (localStorage s))) as Hs1.
  { subst s1. unfold set_localStorage, migrate_choice, migrate. cbn [localStorage].
    by rewrite Hnew, Hold. }
  assert (_buildOldConsentKey this typeId <> _buildConsentKey this typeId) as Hne.
  { intros H. symmetry in H. by apply consent_key_not_old in H. }
  split. { unfold stored_choice, read. by rewrite Hnew, Hold. }
  split; [done|]. split; [done|].
  split. { by rewrite Hs1, lookup_delete_ne, lookup_insert_eq. }
  split. { by rewrite Hs1, lookup_delete_eq. }
  rewrite (getConsentChoice_ok host this Hok).
  rewrite (set_localStorage_same (migrate_choice this typeId)).
  - unfold stored_choice, read.
    by rewrite Hs1, lookup_delete_ne, lookup_insert_eq.
  - unfold migrate_choice, migrate.
    by rewrite Hs1, lookup_delete_ne, lookup_insert_eq.
Qed.

Lemma C3_migration_on_read_witness :
  localStorage legacy_page !! _buildOldConsentKey (manager_of [analytics]) "analytics"
    = Some "true" /\
  result_of (getConsentChoice working_host (manager_of [analytics]) "analytics"
               legacy_page) = Ok (JBool true) /\
  localStorage (store_of (getConsentChoice working_host (manager_of [analytics])
                            "analytics" legacy_page))
    !! _buildConsentKey (manager_of [analytics]) "analytics" = Some "true".
Proof.
  assert (localStorage legacy_page
            !! _buildOldConsentKey (manager_of [analytics]) "analytics"
          = Some "true") as Hold by (vm_compute; reflexivity).
  split; [exact Hold|].
  destruct (C3_migration_on_read working_host (manager_of [analytics]) "analytics"
              legacy_page (working_host_ok _)) as (Hr & _ & _ & Hnew & _).
  - vm_compute. reflexivity.
  - exact Hold.
  - split; [exact Hr | exact Hnew].
Defined.

(** The outcome of the write is not looked at: on a page whose storage
    passes the probe but refuses the write of the current key (quota
    exceeded), the legacy key is deleted all the same and the next read
    finds nothing.  The theorem above is about a working storage. *)
Example migration_when_write_fails :
  let full := {| getItem_throws := fun _ => false;
                 setItem_throws := fun k _ => negb (String.eqb k testKey);
                 removeItem_throws := fun _ => false;
                 gtag_is_function := true;
                 silktide_is_function := false |} in
  getConsentChoice full (manager_of [analytics]) "analytics" legacy_page =
    (Ok (JBool true), empty_page, [warn_write]) /\
  getConsentChoice full (manager_of [analytics]) "analytics" empty_page =
    (Ok JNull, empty_page, []).
Proof. vm_compute. split; reflexivity. Qed.

Example migration_example :
  getConsentChoice working_host (manager_of [analytics]) "analytics" legacy_page =
  (Ok (JBool true), page_with {[ "stcm.consent.analytics" := "true" ]}, []).
Proof. vm_compute. reflexivity. Qed.

(** ** C10: the has-consented flag tests presence only *)

Lemma getHasConsented_ok host this s :
  storage_ok host this ->
  getHasConsented host this s =
    (Ok (bool_decide
           (is_Some (read (_buildHasConsentedKey this)
                       (_buildOldHasConsentedKey this) (localStorage s)))),
     set_localStorage
       (migrate (_buildHasConsentedKey this) (_buildOldHasConsentedKey this)) s,
     []).
Proof.
  intros Hok. unfold getHasConsented.
  rewrite (bind_silent _ _ _ _ _ (read_migrating_ok host this Hok _ _ _)).
  unfold ret. by destruct (read _ _ _).
Qed.

Lemma setHasConsented_ok host this s :
  storage_ok host this ->
  setHasConsented host this s =
    (Ok tt,
     set_localStorage
       (fun ls => delete (_buildOldHasConsentedKey this)
                    (<[_buildHasConsentedKey this := "1"]> ls)) s,
     []).
Proof.
  intros Hok. unfold setHasConsented.
  rewrite (bind_silent _ _ _ _ _ (set_ok host this Hok _ _ _)).
  rewrite (bind_silent _ _ _ _ _ (get_ok host this Hok _ _)).
  destruct s as [ls doc]. unfold set_localStorage. cbn [localStorage document_scripts].
  destruct (<[_ := _]> ls !! _) eqn:Ho.
  - rewrite (bind_silent _ _ _ _ _ (remove_ok host this Hok _ _)). reflexivity.
  - unfold ret. by rewrite (delete_id _ _ Ho).
Qed.

(** C10.  On a working storage [getHasConsented] returns [true] exactly
    when some string, whatever it is, is stored under the current or the
    legacy has-consented key, although [setHasConsented] only ever writes
    ["1"] (under the current key). *)
Theorem C10_hasConsented_tests_presence
    (host : Host) (this : Manager) (s : Store) :
  storage_ok host this ->
  (exists b,
     result_of (getHasConsented host this s) = Ok b /\
     (b = true <->
      is_Some (localStorage s !! _buildHasConsentedKey this) \/
      is_Some (localStorage s !! _buildOldHasConsentedKey this))) /\
  (forall v,
     localStorage s !! _buildHasConsentedKey this = Some v \/
     localStorage s !! _buildOldHasConsentedKey this = Some v ->
     result_of (getHasConsented host this s) = Ok true) /\
  result_of (setHasConsented host this s) = Ok tt /\
  localStorage (store_of (setHasConsented host this s))
    !! _buildHasConsentedKey this = Some "1".
Proof.
  intros Hok. rewrite (getHasConsented_ok host this s Hok).
  rewrite (setHasConsented_ok host this s Hok).
  unfold result_of, store_of, read. cbn [fst snd].
  split; [|split; [|split]].
  - eexists. split; [reflexivity|].
    rewrite bool_decide_eq_true.
    destruct (localStorage s !! _buildHasConsentedKey this) eqn:Hn.
    + split; [intros _; left; eauto | intros _; eauto].
    + split; [intros H; by right|].
      intros [H|H]; [by destruct H | done].
  - intros v [H|H]; f_equal; apply bool_decide_eq_true.
    + rewrite H. eauto.
    + destruct (localStorage s !! _buildHasConsentedKey this); [eauto|].
      rewrite H. eauto.
  - reflexivity.
  - unfold set_localStorage. cbn [localStorage].
    rewrite lookup_delete_ne, lookup_insert_eq; [done|].
    intros H. symmetry in H. by apply hasConsented_key_not_old in H.
Qed.

Lemma C10_hasConsented_tests_presence_witness :
  storage_ok working_host (manager_of [analytics]) /\
  result_of (getHasConsented working_host (manager_of [analytics])
               (page_with {[ "stcm.hasConsented" := "0" ]})) = Ok true.
Proof.
  split; [apply working_host_ok|].
  destruct (C10_hasConsented_tests_presence working_host (manager_of [analytics])
              (page_with {[ "stcm.hasConsented" := "0" ]})
              (working_host_ok [analytics])) as (_ & H & _).
  apply (H "0"). left. vm_compute. reflexivity.
Defined.

Example hasConsented_empty_string :
  result_of (getHasConsented working_host (manager_of [analytics])
               (page_with {[ "silktideCookieBanner_InitialChoice" := "" ]})) = Ok true.
Proof. vm_compute. reflexivity. Qed.

Example hasConsented_nothing_stored :
  result_of (getHasConsented working_host (manager_of [analytics]) empty_page) = Ok false.
Proof. vm_compute. reflexivity. Qed.

(** ** C4: the accepted-consents summary *)

Lemma accepted_map_ext this ls1 ls2 tys acc :
  (forall x, stored_choice this ls1 x = stored_choice this ls2 x) ->
  accepted_map this ls1 tys acc = accepted_map this ls2 tys acc.
Proof.
  intros H. unfold accepted_map. revert acc.
  induction tys as [|ty tys IH]; intros acc; simpl; [done|].
  by rewrite H, IH.
Qed.

Lemma accepted_map_lookup this ls tys acc x :
  accepted_map this ls tys acc !! x =
    if decide (x ∈ map id tys) then Some (stored_choice this ls x) else acc !! x.
Proof.
  unfold accepted_map. revert acc.
  induction tys as [|ty tys IH]; intros acc; simpl.
  - destruct (decide (x ∈ [])) as [H|H]; [by apply elem_of_nil in H | done].
  - rewrite IH.
    destruct (decide (x ∈ map id tys)) as [H1|H1];
      destruct (decide (x ∈ id ty :: map id tys)) as [H2|H2]; try done.
    + exfalso. apply H2, elem_of_cons. by right.
    + apply elem_of_cons in H2 as [->|H2]; [|done]. by rewrite lookup_insert_eq.
    + apply not_elem_of_cons in H2 as [H2 _]. by rewrite lookup_insert_ne.
Qed.

Lemma getAcceptedConsents_ok host this s :
  storage_ok host this ->
  getAcceptedConsents host this s =
    (Ok (accepted_map this (localStorage s) (consentTypes (config this)) ∅),
     set_localStorage (migrate_all this (consentTypes (config this))) s, []).
Proof.
  intros Hok. unfold getAcceptedConsents.
  generalize (∅ : gmap string jsval) as acc.
  revert s. induction (consentTypes (config this)) as [|ty tys IH]; intros s acc.
  - simpl. unfold ret. by rewrite set_localStorage_id.
  - cbn [forEach_acc].
    rewrite (bind_silent _ _ _
               (<[id ty := stored_choice this (localStorage s) (id ty)]> acc)
               (set_localStorage (migrate_choice this (id ty)) s)).
    + rewrite IH.
      rewrite (accepted_map_ext this _ (localStorage s));
        [reflexivity | intros x; apply stored_choice_migrate].
    + by rewrite (bind_silent _ _ _ _ _ (getConsentChoice_ok host this Hok _ _)).
Qed.

(** C4, as the code has it.  On a working storage [getAcceptedConsents]
    maps every configured category to its stored choice as
    [getConsentChoice] reads it: [true] exactly when the choice is Granted,
    [false] exactly when it is Denied, and [null] (not [false]) when it is
    Unset; so the value is truthy exactly for Granted, but is not always a
    boolean. *)
Theorem C4_accepted_consents_tristate
    (host : Host) (this : Manager) (s : Store) (ty : ConsentType) :
  storage_ok host this ->
  ty ∈ consentTypes (config this) ->
  exists m,
    result_of (getAcceptedConsents host this s) = Ok m /\
    m !! id ty =
      Some (match choice this (localStorage s) (id ty) with
            | Granted => JBool true
            | Denied => JBool false
            | Unset => JNull
            end) /\
    (m !! id ty = Some (JBool true) <->
     choice this (localStorage s) (id ty) = Granted) /\
    (forall v, m !! id ty = Some v ->
       truthy v = true <-> choice this (localStorage s) (id ty) = Granted).
Proof.
  intros Hok Hty. rewrite (getAcceptedConsents_ok host this s Hok).
  eexists. split; [reflexivity|].
  rewrite accepted_map_lookup.
  rewrite decide_True by (apply list_elem_of_fmap; eauto).
  unfold choice.
  assert (stored_choice this (localStorage s) (id ty) <> JUndefined) as Hu.
  { unfold stored_choice. by destruct (read _ _ _). }
  destruct (stored_choice this (localStorage s) (id ty)) as [| |[|]];
    try done; (split; [done|]); split; try (split; congruence);
    intros v [= <-]; simpl; split; congruence.
Qed.

Lemma C4_accepted_consents_tristate_witness :
  exists m,
    result_of (getAcceptedConsents working_host (manager_of [necessary; analytics])
                 denied_page) = Ok m /\
    m !! "analytics" = Some (JBool false).
Proof.
  destruct (C4_accepted_consents_tristate working_host
              (manager_of [necessary; analytics]) denied_page
              analytics (working_host_ok _)) as (m & Hm & Hv & _).
  - apply list_elem_of_further, list_elem_of_here.
  - exists m. split; [exact Hm | exact Hv].
Defined.

(** A category that was never decided is reported as [null], where the
    specification promises the boolean [false]. *)
Lemma C4_counterexample :
  choice (manager_of [analytics]) (localStorage empty_page) "analytics" = Unset /\
  result_of (getAcceptedConsents working_host (manager_of [analytics]) empty_page)
    = Ok {[ "analytics" := JNull ]} /\
  ({[ "analytics" := JNull ]} : gmap string jsval) !! "analytics"
    <> Some (JBool false).
Proof. vm_compute. repeat split. discriminate. Qed.

(** ** C7: accept all / reject all keeps required categories granted *)

Lemma choose_lookup accepted m ty :
  choose accepted m ty !! id ty = Some (JBool (required ty || accepted)).
Proof. unfold choose. destruct (required ty); by rewrite lookup_insert_eq. Qed.

Lemma choose_lookup_ne accepted m ty x :
  x <> id ty -> choose accepted m ty !! x = m !! x.
Proof. intros H. unfold choose. destruct (required ty); by rewrite lookup_insert_ne. Qed.

Lemma fold_choose_absent accepted tys m x :
  x ∉ map id tys -> fold_left (choose accepted) tys m !! x = m !! x.
Proof.
  revert m. induction tys as [|ty tys IH]; intros m Hx; simpl; [done|].
  simpl in Hx. apply not_elem_of_cons in Hx as [Hne Hx].
  by rewrite IH, choose_lookup_ne.
Qed.

Lemma fold_choose_lookup accepted tys m ty :
  NoDup (map id tys) -> ty ∈ tys ->
  fold_left (choose accepted) tys m !! id ty = Some (JBool (required ty || accepted)).
Proof.
  revert m. induction tys as [|ty' tys IH]; intros m Hnd Hty; simpl.
  - by apply elem_of_nil in Hty.
  - simpl in Hnd. apply list.NoDup_cons in Hnd as [Hfresh Hnd].
    apply elem_of_cons in Hty as [->|Hty].
    + by rewrite fold_choose_absent, choose_lookup.
    + by apply IH.
Qed.

(** C7.  With unique category identifiers, whatever the boolean passed to
    [handleConsentChoice], the map it hands to [batchUpdateConsents] gives
    [true] to every required category and the boolean itself to every
    other category, and nothing to identifiers that are not configured. *)
Theorem C7_required_categories_forced
    (host : Host) (this : Manager) (accepted : bool) (s : Store) :
  NoDup (map id (consentTypes (config this))) ->
  (forall ty, ty ∈ consentTypes (config this) ->
     build_consentStates this accepted !! id ty =
       Some (JBool (if required ty then true else accepted))) /\
  (forall x, x ∉ map id (consentTypes (config this)) ->
     build_consentStates this accepted !! x = None) /\
  handleConsentChoice host this accepted =
    bind (setHasConsented host this) (fun _ =>
    bind (emit (presentation "removeBanner")) (fun _ =>
    bind (emit (presentation "hideBackdrop")) (fun _ =>
    bind (emit (presentation "toggleModal")) (fun _ =>
    bind (emit (presentation "showCookieIcon")) (fun _ =>
    bind (batchUpdateConsents host this (build_consentStates this accepted)) (fun _ =>
    bind (if accepted && onAcceptAll (config this) then emit call_onAcceptAll
          else if negb accepted && onRejectAll (config this) then emit call_onRejectAll
          else ret tt) (fun _ =>
    emit (presentation "updateCheckboxState")))))))).
Proof.
  intros Hnd. split; [|split].
  - intros ty Hty. unfold build_consentStates.
    fold (choose accepted). rewrite fold_choose_lookup by done.
    by destruct (required ty).
  - intros x Hx. unfold build_consentStates. fold (choose accepted).
    by rewrite fold_choose_absent.
  - reflexivity.
Qed.

Lemma C7_required_categories_forced_witness :
  NoDup (map id (consentTypes (config (manager_of [necessary; analytics; marketing])))) /\
  build_consentStates (manager_of [necessary; analytics; marketing]) false
    !! "necessary" = Some (JBool true) /\
  build_consentStates (manager_of [necessary; analytics; marketing]) false
    !! "analytics" = Some (JBool false).
Proof.
  assert (NoDup (map id (consentTypes (config
            (manager_of [necessary; analytics; marketing]))))) as Hnd.
  { apply (bool_decide_unpack _). vm_compute. exact I. }
  split; [exact Hnd|].
  destruct (C7_required_categories_forced working_host
              (manager_of [necessary; analytics; marketing]) false empty_page Hnd)
    as (H & _).
  split.
  - apply (H necessary). apply list_elem_of_here.
  - apply (H analytics). apply list_elem_of_further, list_elem_of_here.
Defined.

Example reject_all_states :
  build_consentStates (manager_of [necessary; analytics; marketing]) false =
    {[ "necessary" := JBool true;
       "analytics" := JBool false;
       "marketing" := JBool false ]}.
Proof. vm_compute. reflexivity. Qed.

(** ** C1: a batch equal to the stored state *)

Lemma migrate_choice_settled this ls x :
  settled this ls x -> migrate_choice this x ls = ls.
Proof.
  unfold settled, migrate_choice, migrate. intros [[v ->]| ->]; [done|].
  by destruct (ls !! _buildConsentKey this x).
Qed.

Lemma settled_migrate this ls x y :
  x = y \/ settled this ls y -> settled this (migrate_choice this x ls) y.
Proof.
  unfold settled, migrate_choice, migrate. intros H.
  destruct (ls !! _buildConsentKey this x) eqn:Hn.
  { destruct H as [<-|H]; [left; by rewrite Hn | done]. }
  destruct (ls !! _buildOldConsentKey this x) eqn:Ho.
  2:{ destruct H as [<-|H]; [by right | done]. }
  destruct (decide (x = y)) as [<-|Hxy].
  { right. by rewrite lookup_delete_eq. }
  destruct H as [H|[H|H]]; [done|left|right].
  - rewrite lookup_delete_ne, lookup_insert_ne; [done|..].
    + intros E. by apply consent_key_inj in E.
    + intros E. symmetry in E. by apply consent_key_not_old in E.
  - rewrite lookup_delete_ne, lookup_insert_ne; [done|..].
    + apply consent_key_not_old.
    + intros E. by apply old_consent_key_inj in E.
Qed.

Lemma settled_store this ls x b y :
  x = y \/ settled this ls y -> settled this (store_choice this x b ls) y.
Proof.
  unfold settled, store_choice. intros H.
  destruct (decide (x = y)) as [<-|Hxy].
  { right. by rewrite lookup_delete_eq. }
  destruct H as [H|[H|H]]; [done|left|right].
  - rewrite lookup_delete_ne, lookup_insert_ne; [done|..].
    + intros E. by apply consent_key_inj in E.
    + intros E. symmetry in E. by apply consent_key_not_old in E.
  - rewrite lookup_delete_ne, lookup_insert_ne; [done|..].
    + apply consent_key_not_old.
    + intros E. by apply old_consent_key_inj in E.
Qed.

Lemma migrate_all_settled this tys ls :
  (forall ty, ty ∈ tys -> settled this ls (id ty)) -> migrate_all this tys ls = ls.
Proof.
  unfold migrate_all. induction tys as [|ty tys IH]; intros H; simpl; [done|].
  rewrite migrate_choice_settled by (apply H, list_elem_of_here).
  apply IH. intros ty' Hty'. by apply H, list_elem_of_further.
Qed.

Lemma settled_migrate_all this tys ls y :
  y ∈ map id tys \/ settled this ls y -> settled this (migrate_all this tys ls) y.
Proof.
  unfold migrate_all. revert ls. induction tys as [|ty tys IH]; intros ls H; simpl.
  - destruct H as [H|H]; [by apply elem_of_nil in H | done].
  - apply IH. destruct H as [H|H].
    + simpl in H. apply elem_of_cons in H as [->|H]; [right|by left].
      apply settled_migrate. by left.
    + right. apply settled_migrate. by right.
Qed.

Lemma settled_store_all this chs ls y :
  settled this ls y -> settled this (store_all this chs ls) y.
Proof.
  unfold store_all. revert ls. induction chs as [|c chs IH]; intros ls H; simpl.
  - done.
  - apply IH, settled_store. by right.
Qed.

Lemma changes_of_nil this cs ls tys :
  (forall ty, ty ∈ tys -> requested cs (id ty) = stored_choice this ls (id ty)) ->
  changes_of this cs ls tys = [].
Proof.
  unfold changes_of. induction tys as [|ty tys IH]; intros H; simpl; [done|].
  unfold changed at 1. rewrite bool_decide_eq_true_2 by (apply H, list_elem_of_here).
  simpl. apply IH. intros ty' Hty'. by apply H, list_elem_of_further.
Qed.

(** C1, as the code has it.  On a working storage, when the requested state
    of every configured category equals its stored choice,
    [batchUpdateConsents] returns [false] and calls nothing: no integration
    call, no event-queue push, no callback, no reload timer, no console
    output, no script injection.  The storage is touched only by the
    migration that reading a choice performs on a legacy key: every stored
    choice reads as before, and when no configured category has a legacy
    key waiting the store is left exactly as it was. *)
Theorem C1_unchanged_batch_calls_nothing
    (host : Host) (this : Manager) (cs : gmap string jsval) (s : Store) :
  storage_ok host this ->
  (forall ty, ty ∈ consentTypes (config this) ->
     requested cs (id ty) = stored_choice this (localStorage s) (id ty)) ->
  let r := batchUpdateConsents host this cs s in
  result_of r = Ok false /\
  events_of r = [] /\
  document_scripts (store_of r) = document_scripts s /\
  localStorage (store_of r) =
    migrate_all this (consentTypes (config this)) (localStorage s) /\
  (forall x, stored_choice this (localStorage (store_of r)) x =
             stored_choice this (localStorage s) x) /\
  ((forall ty, ty ∈ consentTypes (config this) ->
      settled this (localStorage s) (id ty)) ->
   store_of r = s).
Proof.
  intros Hok Hsame r. subst r.
  rewrite (batch_unchanged host this cs s _ _ _ (first_pass_ok host this Hok cs s)).
  2:{ by rewrite changes_of_nil. }
  unfold result_of, store_of, events_of. cbn [fst snd].
  repeat split.
  - intros x. apply stored_choice_migrate_all.
  - intros Hs. apply set_localStorage_same. by apply migrate_all_settled.
Qed.

Lemma C1_unchanged_batch_calls_nothing_witness :
  batchUpdateConsents working_host (manager_of [necessary; analytics])
    refuse_analytics denied_page =
  (Ok false, denied_page, []).
Proof.
  destruct (C1_unchanged_batch_calls_nothing working_host
              (manager_of [necessary; analytics]) refuse_analytics denied_page
              (working_host_ok _)) as (Hr & He & _ & _ & _ & Hs).
  - intros ty Hty.
    apply elem_of_cons in Hty as [->|Hty]; [vm_compute; reflexivity|].
    apply elem_of_cons in Hty as [->|Hty]; [vm_compute; reflexivity|].
    by apply elem_of_nil in Hty.
  - destruct (batchUpdateConsents _ _ _ _) as [[r s'] ev].
    unfold result_of, events_of, store_of in *. cbn [fst snd] in *.
    rewrite Hr, He, Hs; [reflexivity|].
    intros ty Hty. left.
    apply elem_of_cons in Hty as [->|Hty]; [vm_compute; eauto|].
    apply elem_of_cons in Hty as [->|Hty]; [vm_compute; eauto|].
    by apply elem_of_nil in Hty.
Defined.

(** The stored choice sits under the legacy key: the requested state equals
    it, the call returns [false], and yet the storage has been written
    (the current key) and deleted from (the legacy key). *)
Lemma C1_counterexample :
  requested accept_analytics "analytics" =
    stored_choice (manager_of [analytics]) (localStorage legacy_page) "analytics" /\
  batchUpdateConsents working_host (manager_of [analytics]) accept_analytics
    legacy_page =
  (Ok false, page_with {[ "stcm.consent.analytics" := "true" ]}, []) /\
  localStorage (page_with {[ "stcm.consent.analytics" := "true" ]})
    <> localStorage legacy_page.
Proof. vm_compute. repeat split. discriminate. Qed.

(** ** The events of a batch that changes something *)

Lemma first_pass_warnings host this cs s d s1 ev1 :
  first_pass host this cs s = (Ok d, s1, ev1) ->
  Forall (fun e => is_warning e = true) ev1.
Proof.
  intros H. destruct (re_first_pass host this cs s) as (d' & s' & ev' & E & F & _).
  rewrite H in E. by inversion E; subst.
Qed.

Lemma batch_events host this cs s d s1 ev1 :
  first_pass host this cs s = (Ok d, s1, ev1) ->
  hasChanges d = true ->
  Forall (fun c => is_boolean (newState c) = true) (changes d) ->
  exists s3 ev2 ev3,
    batchUpdateConsents host this cs s =
      (Ok true, s3,
       ev1 ++ ev2 ++ notify_events host this (gtagConsentUpdate d) ++
       gtm_events this ++ ev3 ++ reload_events (needsReload d)) /\
    Forall (fun e => is_warning e = true) ev2 /\
    Forall (fun e => is_local e = true) ev3.
Proof.
  intros H1 Hd Hb.
  destruct (re_second_pass host this (changes d) Hb s1)
    as ([] & s2 & ev2 & E2 & F2 & _).
  destruct (rk_third_pass (changes d) s2) as ([] & s3 & ev3 & E3 & F3 & _).
  exists s3, ev2, ev3. split; [|done].
  by apply (batch_changed host this cs s d s1 ev1 s2 ev2 s3 ev3).
Qed.

(** Events of a kind that neither the storage adapter nor the callbacks
    produce are counted on the three calls the batch itself makes. *)
Lemma batch_count (P : event -> bool) host this cs s d s1 ev1 :
  (forall e, is_local e = true -> P e = false) ->
  first_pass host this cs s = (Ok d, s1, ev1) ->
  hasChanges d = true ->
  Forall (fun c => is_boolean (newState c) = true) (changes d) ->
  result_of (batchUpdateConsents host this cs s) = Ok true /\
  count P (events_of (batchUpdateConsents host this cs s)) =
    count P (notify_events host this (gtagConsentUpdate d)) +
    count P (gtm_events this) +
    count P (reload_events (needsReload d)).
Proof.
  intros HP H1 Hd Hb.
  destruct (batch_events host this cs s d s1 ev1 H1 Hd Hb)
    as (s3 & ev2 & ev3 & E & F2 & F3).
  rewrite E. split; [done|]. unfold events_of. cbn [snd].
  assert (forall e, is_warning e = true -> P e = false) as HW.
  { intros e He. apply HP. unfold is_local. by rewrite He. }
  rewrite !count_app.
  rewrite (count_none P is_warning ev1 HW (first_pass_warnings _ _ _ _ _ _ _ H1)).
  rewrite (count_none P is_warning ev2 HW F2).
  rewrite (count_none P is_local ev3 HP F3).
  lia.
Qed.

Lemma batch_count_unchanged (P : event -> bool) host this cs s d s1 ev1 :
  (forall e, is_local e = true -> P e = false) ->
  first_pass host this cs s = (Ok d, s1, ev1) ->
  hasChanges d = false ->
  result_of (batchUpdateConsents host this cs s) = Ok false /\
  count P (events_of (batchUpdateConsents host this cs s)) = 0.
Proof.
  intros HP H1 Hd.
  rewrite (batch_unchanged host this cs s d s1 ev1 H1 Hd).
  split; [done|]. unfold events_of. cbn [snd].
  apply (count_none P is_warning); [|by eapply first_pass_warnings].
  intros e He. apply HP. unfold is_local. by rewrite He.
Qed.

Lemma local_not_push e : is_local e = true -> is_push e = false.
Proof. by destruct e. Qed.

Lemma local_not_gtag e : is_local e = true -> is_gtag e = false.
Proof. by destruct e. Qed.


Lemma notify_no_push host this upd : count is_push (notify_events host this upd) = 0.
Proof.
  unfold notify_events.
  destruct (_ && _); [by destruct (debug _)|].
  destruct (truthy_str _); [|done]. by destruct (silktide_is_function host).
Qed.


Lemma gtm_one_push this : count is_push (gtm_events this) = 1.
Proof. unfold gtm_events. by destruct (debug _). Qed.

Lemma gtm_no_gtag this : count is_gtag (gtm_events this) = 0.
Proof. unfold gtm_events. by destruct (debug _). Qed.


Lemma reload_no_push b : count is_push (reload_events b) = 0.
Proof. by destruct b. Qed.

Lemma reload_no_gtag b : count is_gtag (reload_events b) = 0.
Proof. by destruct b. Qed.


(** ** C5: the generic event is pushed once per changed batch *)

(** C5, as the code has it.  On every host, a [batchUpdateConsents] call
    whose first pass detects at least one changed category (every changed
    category being given a boolean) pushes the generic event exactly once,
    whether or not the integration payload has any entry; a call that
    detects no change pushes none.  On a working storage the detected
    changes are the configured categories whose requested state differs
    from the stored choice. *)
Theorem C5_one_push_per_changed_batch
    (host : Host) (this : Manager) (cs : gmap string jsval) (s : Store)
    (d : Detected) (s1 : Store) (ev1 : list event) :
  first_pass host this cs s = (Ok d, s1, ev1) ->
  Forall (fun c => is_boolean (newState c) = true) (changes d) ->
  let r := batchUpdateConsents host this cs s in
  (hasChanges d = true ->
     result_of r = Ok true /\
     List.filter is_push (events_of r) = [dataLayer_push (eventName (config this))]) /\
  (hasChanges d = false ->
     result_of r = Ok false /\ List.filter is_push (events_of r) = []) /\
  (storage_ok host this ->
     changes d = changes_of this cs (localStorage s) (consentTypes (config this))).
Proof.
  intros H1 Hb r. subst r. split; [|split]; [intros Hd|intros Hd|intros Hok].
  - destruct (batch_events host this cs s d s1 ev1 H1 Hd Hb)
      as (s3 & ev2 & ev3 & E & F2 & F3).
    rewrite E. split; [done|]. unfold events_of. cbn [snd].
    assert (forall evs, count is_push evs = 0 -> List.filter is_push evs = []) as Hnil.
    { intros evs. unfold count. by destruct (List.filter is_push evs). }
    assert (forall e, is_warning e = true -> is_push e = false) as HW by (by intros []).
    rewrite !List.filter_app.
    rewrite (Hnil ev1), (Hnil ev2), (Hnil (notify_events _ _ _)),
      (Hnil ev3), (Hnil (reload_events _)).
    + unfold gtm_events. by destruct (debug (config this)).
    + apply reload_no_push.
    + apply (count_none is_push is_local); [apply local_not_push | done].
    + apply notify_no_push.
    + by apply (count_none is_push is_warning).
    + apply (count_none is_push is_warning); [done|].
      by eapply first_pass_warnings.
  - destruct (batch_count_unchanged is_push host this cs s d s1 ev1
                local_not_push H1 Hd) as [Hr Hc].
    split; [done|]. unfold count in Hc.
    by destruct (List.filter is_push _).
  - rewrite (first_pass_ok host this Hok cs s) in H1. by inversion H1.
Qed.

Lemma C5_one_push_per_changed_batch_witness :
  result_of (batchUpdateConsents working_host (manager_of [functional])
               accept_functional empty_page) = Ok true /\
  List.filter is_push
    (events_of (batchUpdateConsents working_host (manager_of [functional])
                  accept_functional empty_page)) =
  [dataLayer_push "stcm_consent_update"].
Proof.
  pose proof (first_pass_ok working_host (manager_of [functional])
                (working_host_ok _) accept_functional empty_page) as H1.
  destruct (C5_one_push_per_changed_batch working_host (manager_of [functional])
              accept_functional empty_page _ _ _ H1) as (H & _).
  - vm_compute. repeat constructor.
  - apply H. reflexivity.
Defined.

(** One category without signal identifiers changes: the integration
    payload is empty, and the event is pushed all the same. *)
Lemma C5_counterexample :
  (exists d s1,
     first_pass working_host (manager_of [functional]) accept_functional empty_page
       = (Ok d, s1, []) /\
     hasChanges d = true /\ gtagConsentUpdate d = ∅) /\
  batchUpdateConsents working_host (manager_of [functional]) accept_functional
    empty_page =
  (Ok true, page_with {[ "stcm.consent.functional" := "true" ]},
   [dataLayer_push "stcm_consent_update"]).
Proof.
  split.
  - eexists _, _. split; [vm_compute; reflexivity|]. split; reflexivity.
  - vm_compute. reflexivity.
Qed.

(** ** C2: one consolidated integration call *)

Lemma assign_params_lookup params st (m : gmap string string) p :
  assign_params params st m !! p =
    if bool_decide (p ∈ params) then Some st else m !! p.
Proof.
  unfold assign_params. revert m.
  induction params as [|a params IH]; intros m; cbn [fold_left].
  - rewrite bool_decide_eq_false_2; [done|]. by intros H%elem_of_nil.
  - rewrite IH. destruct (decide (p ∈ params)) as [Hin|Hin].
    + rewrite !bool_decide_eq_true_2; [done|by apply list_elem_of_further|done].
    + rewrite (bool_decide_eq_false_2 _ Hin).
      destruct (decide (p = a)) as [->|Hne].
      * rewrite lookup_insert_eq, bool_decide_eq_true_2; [done|apply list_elem_of_here].
      * rewrite lookup_insert_ne by done.
        rewrite bool_decide_eq_false_2; [done|].
        intros [?|?]%elem_of_cons; done.
Qed.

Lemma payload_step_lookup m c p :
  payload_step m c !! p =
    if lists_param p c then Some (consentState (newState c)) else m !! p.
Proof.
  unfold payload_step, lists_param.
  destruct (gtagParams (gtag (type c))); [apply assign_params_lookup | done].
Qed.

Lemma fold_payload_lookup chs m p :
  fold_left payload_step chs m !! p =
    match last_lister p chs with
    | Some c => Some (consentState (newState c))
    | None => m !! p
    end.
Proof.
  revert m. induction chs as [|c chs IH]; intros m; simpl; [done|].
  rewrite IH. destruct (last_lister p chs); [done|].
  rewrite payload_step_lookup. by destruct (lists_param p c).
Qed.

Lemma payload_of_lookup chs p :
  payload_of chs !! p = (fun c => consentState (newState c)) <$> last_lister p chs.
Proof.
  unfold payload_of. rewrite fold_payload_lookup.
  by destruct (last_lister p chs).
Qed.

Lemma last_lister_Some p chs c :
  last_lister p chs = Some c -> c ∈ chs /\ lists_param p c = true.
Proof.
  induction chs as [|c0 chs IH]; simpl; [done|].
  destruct (last_lister p chs) as [c'|].
  - intros [= <-]. destruct (IH eq_refl) as [Hin Hl].
    split; [by apply list_elem_of_further | done].
  - destruct (lists_param p c0) eqn:Hl; [|done].
    intros [= <-]. split; [apply list_elem_of_here | done].
Qed.

Lemma last_lister_is_Some p chs c :
  c ∈ chs -> lists_param p c = true -> is_Some (last_lister p chs).
Proof.
  induction chs as [|c0 chs IH]; simpl.
  - by intros H%elem_of_nil.
  - intros [->|Hin]%elem_of_cons Hl.
    + destruct (last_lister p chs); [eauto|]. rewrite Hl. eauto.
    + destruct (IH Hin Hl) as [c' ->]. eauto.
Qed.

Lemma payload_nonempty chs :
  0 < length (List.filter has_signals chs) -> 0 < size (payload_of chs).
Proof.
  intros Hlen.
  destruct (List.filter has_signals chs) as [|c l] eqn:Hf; [simpl in Hlen; lia|].
  assert (In c (List.filter has_signals chs)) as Hin by (rewrite Hf; by left).
  apply List.filter_In in Hin as [Hin Hs].
  apply list_elem_of_In in Hin.
  unfold has_signals in Hs.
  destruct (gtagParams (gtag (type c))) as [[|p ps]|] eqn:Hg; try discriminate.
  assert (lists_param p c = true) as Hl.
  { unfold lists_param. rewrite Hg. apply bool_decide_eq_true_2, list_elem_of_here. }
  destruct (last_lister_is_Some p chs c Hin Hl) as [c' Hc'].
  assert (payload_of chs !! p = Some (consentState (newState c'))) as Hp
    by (by rewrite payload_of_lookup, Hc').
  assert (size (payload_of chs) <> 0); [|lia].
  apply map_size_non_empty_iff. intros E. by rewrite E, lookup_empty in Hp.
Qed.

Lemma first_pass_changes host this cs s d s1 ev1 :
  first_pass host this cs s = (Ok d, s1, ev1) ->
  forall c, c ∈ changes d ->
    type c ∈ consentTypes (config this) /\
    newState c = requested cs (id (type c)) /\
    previousState c <> newState c.
Proof.
  unfold first_pass. intros H.
  assert (forall (tys : list ConsentType) acc s d s1 ev1,
            forEach_acc tys (detect host this cs) acc s = (Ok d, s1, ev1) ->
            forall c, c ∈ changes d ->
              c ∈ changes acc \/
              (type c ∈ tys /\ newState c = requested cs (id (type c)) /\
               previousState c <> newState c)) as Hgen.
  { clear. induction tys as [|ty tys IH]; intros acc s d s1 ev1 Hrun c Hc.
    - simpl in Hrun. unfold ret in Hrun. inversion Hrun; subst. by left.
    - simpl in Hrun. unfold bind in Hrun.
      destruct (detect host this cs acc ty s) as [[[acc'|e] s'] ev'] eqn:Hdet;
        [|discriminate].
      destruct (forEach_acc tys _ acc' s') as [[r2 s2] ev2] eqn:Hrest.
      inversion Hrun; subst.
      destruct (IH _ _ _ _ _ Hrest c Hc) as [Hin|(Hin & Hn & Hp)].
      + unfold detect, bind in Hdet.
        destruct (getConsentChoice host this (id ty) s) as [[[prev|e] s3] ev3];
          [|discriminate].
        unfold ret in Hdet. inversion Hdet; subst. clear Hdet.
        unfold compare in Hin. case_bool_decide as Heq; [by left|].
        simpl in Hin. apply elem_of_app in Hin as [Hin|Hin]; [by left|].
        apply list_elem_of_singleton in Hin as ->. right. simpl.
        split; [apply list_elem_of_here|]. split; [done|]. congruence.
      + right. split; [by apply list_elem_of_further | done]. }
  intros c Hc. destruct (Hgen _ _ _ _ _ _ H c Hc) as [Hin|?]; [|done].
  by apply elem_of_nil in Hin.
Qed.

(** C2, as the code has it.  On a host that defines [gtag], a batch in
    which two or more categories with signal identifiers change (every
    changed category being given a boolean) makes exactly one integration
    call.  Its payload gives each signal identifier the state of the last
    changed category, in configuration order, that lists it: so a changed
    category's identifier carries that category's own new state whenever
    the changed categories that share the identifier agree.  On a working
    storage the changed categories are the configured ones whose requested
    state differs from the stored choice. *)
Theorem C2_one_consolidated_integration_call
    (host : Host) (this : Manager) (cs : gmap string jsval) (s : Store)
    (d : Detected) (s1 : Store) (ev1 : list event) :
  first_pass host this cs s = (Ok d, s1, ev1) ->
  gtag_is_function host = true ->
  Forall (fun c => is_boolean (newState c) = true) (changes d) ->
  2 <= length (List.filter has_signals (changes d)) ->
  let r := batchUpdateConsents host this cs s in
  result_of r = Ok true /\
  List.filter is_gtag (events_of r) = [gtag_consent_update (gtagConsentUpdate d)] /\
  (forall p,
     gtagConsentUpdate d !! p =
       (fun c => consentState (newState c)) <$> last_lister p (changes d)) /\
  (forall c p,
     c ∈ changes d -> lists_param p c = true ->
     (forall c', c' ∈ changes d -> lists_param p c' = true ->
        newState c' = newState c) ->
     gtagConsentUpdate d !! p = Some (consentState (newState c))) /\
  (forall c, c ∈ changes d ->
     type c ∈ consentTypes (config this) /\
     newState c = requested cs (id (type c)) /\
     previousState c <> newState c) /\
  (storage_ok host this ->
     changes d = changes_of this cs (localStorage s) (consentTypes (config this))).
Proof.
  intros H1 Hg Hb Hlen r. subst r.
  pose proof (first_pass_summary host this cs s d s1 ev1 H1) as Hsum.
  assert (gtagConsentUpdate d = payload_of (changes d)) as Hpay
    by (rewrite Hsum at 1; reflexivity).
  assert (hasChanges d = true) as Hd.
  { rewrite Hsum. simpl. destruct (changes d); [simpl in Hlen; lia | done]. }
  assert (0 < size (gtagConsentUpdate d)) as Hsize.
  { rewrite Hpay. apply payload_nonempty. lia. }
  destruct (batch_events host this cs s d s1 ev1 H1 Hd Hb)
    as (s3 & ev2 & ev3 & E & F2 & F3).
  rewrite E. unfold result_of, events_of. cbn [fst snd].
  split; [done|]. split; [|split; [|split; [|split]]].
  - assert (forall evs, count is_gtag evs = 0 -> List.filter is_gtag evs = []) as Hnil.
    { intros evs. unfold count. by destruct (List.filter is_gtag evs). }
    assert (forall e, is_warning e = true -> is_gtag e = false) as HW by (by intros []).
    rewrite !List.filter_app.
    rewrite (Hnil ev1), (Hnil ev2), (Hnil (gtm_events _)),
      (Hnil ev3), (Hnil (reload_events _)).
    + unfold notify_events.
      rewrite (bool_decide_eq_true_2 _ Hsize), Hg.
      by destruct (debug (config this)).
    + apply reload_no_gtag.
    + apply (count_none is_gtag is_local); [apply local_not_gtag | done].
    + apply gtm_no_gtag.
    + by apply (count_none is_gtag is_warning).
    + apply (count_none is_gtag is_warning); [done|].
      by eapply first_pass_warnings.
  - intros p. rewrite Hpay. apply payload_of_lookup.
  - intros c p Hc Hl Hagree. rewrite Hpay, payload_of_lookup.
    destruct (last_lister_is_Some p (changes d) c Hc Hl) as [c' Hc'].
    rewrite Hc'. simpl.
    destruct (last_lister_Some p (changes d) c' Hc') as [Hin' Hl'].
    by rewrite (Hagree c' Hin' Hl').
  - by eapply first_pass_changes.
  - intros Hok. rewrite (first_pass_ok host this Hok cs s) in H1. by inversion H1.
Qed.

Lemma C2_one_consolidated_integration_call_witness :
  result_of (batchUpdateConsents working_host
               (manager_of [necessary; analytics; marketing])
               first_choice empty_page) = Ok true /\
  List.filter is_gtag
    (events_of (batchUpdateConsents working_host
                  (manager_of [necessary; analytics; marketing])
                  first_choice empty_page)) =
    [gtag_consent_update
       {[ "analytics_storage" := "granted";
          "ad_storage" := "denied"; "ad_user_data" := "denied" ]}].
Proof.
  pose proof (first_pass_ok working_host
                (manager_of [necessary; analytics; marketing])
                (working_host_ok _) first_choice empty_page) as H1.
  destruct (C2_one_consolidated_integration_call working_host
              (manager_of [necessary; analytics; marketing])
              first_choice empty_page _ _ _ H1 eq_refl) as (Hr & Hg & _).
  - vm_compute. repeat constructor.
  - vm_compute. lia.
  - split; [exact Hr|]. rewrite Hg. vm_compute. reflexivity.
Defined.

(** Two categories that share a signal identifier change in one batch, the
    first to granted and the second to denied: the single payload says
    ["denied"] for the identifier, which is not the first category's new
    state. *)
Lemma C2_counterexample :
  changes_of (manager_of [ads_a; ads_b]) grant_a_deny_b (localStorage empty_page)
    [ads_a; ads_b] =
    [ {| type := ads_a; newState := JBool true; previousState := JNull |};
      {| type := ads_b; newState := JBool false; previousState := JNull |} ] /\
  gtagParams (gtag ads_a) = Some ["ad_storage"] /\
  batchUpdateConsents working_host (manager_of [ads_a; ads_b]) grant_a_deny_b
    empty_page =
  (Ok true,
   page_with {[ "stcm.consent.a" := "true"; "stcm.consent.b" := "false" ]},
   [gtag_consent_update {[ "ad_storage" := "denied" ]};
    dataLayer_push "stcm_consent_update"]) /\
  ({[ "ad_storage" := "denied" ]} : gmap string string) !! "ad_storage"
    <> Some (consentState (JBool true)).
Proof. vm_compute. repeat split. discriminate. Qed.

(** ** C6: revoking a script-bearing category schedules one reload *)



Lemma store_all_stored this cs chs ls x :
  (forall c, c ∈ chs ->
     newState c = requested cs (id (type c)) /\ is_boolean (newState c) = true) ->
  stored_choice this (store_all this chs ls) x = requested cs x \/
  ((x ∉ map change_id chs) /\
   stored_choice this (store_all this chs ls) x = stored_choice this ls x).
Proof.
  unfold store_all. revert ls. induction chs as [|c chs IH]; intros ls H; simpl.
  - right. split; [by intros ?%elem_of_nil | done].
  - destruct (H c (list_elem_of_here _ _)) as [Hn Hb].
    destruct (IH (store_choice this (id (type c)) (truthy (newState c)) ls))
      as [Hl|[Hnot Hr]].
    { intros c' Hc'. by apply H, list_elem_of_further. }
    + by left.
    + destruct (decide (id (type c) = x)) as [<-|Hne].
      * left. rewrite Hr, stored_choice_store_same, <- Hn.
        by destruct (newState c).
      * right. split.
        -- intros [E|E]%elem_of_cons; [by apply Hne | done].
        -- by rewrite Hr, stored_choice_store_other.
Qed.

Lemma changes_of_boolean this cs ls tys :
  (forall t, t ∈ tys -> is_boolean (requested cs (id t)) = true) ->
  forall c, c ∈ changes_of this cs ls tys ->
    newState c = requested cs (id (type c)) /\ is_boolean (newState c) = true.
Proof.
  intros Hb c Hc. unfold changes_of in Hc.
  apply list_elem_of_fmap in Hc as (t & -> & Ht).
  apply list_elem_of_In, List.filter_In in Ht as [Ht _].
  apply list_elem_of_In in Ht. simpl. split; [done | by apply Hb].
Qed.

Lemma changes_of_member this cs ls tys t :
  t ∈ tys -> changed this cs ls t = true ->
  mk_change this cs ls t ∈ changes_of this cs ls tys.
Proof.
  intros Ht Hc. unfold changes_of. apply list_elem_of_fmap. exists t.
  split; [done|]. apply list_elem_of_In, List.filter_In.
  split; [by apply list_elem_of_In | done].
Qed.

(** After a batch of booleans on a working storage every configured
    category is stored as requested. *)
Lemma stored_after_batch this cs ls tys t :
  (forall t, t ∈ tys -> is_boolean (requested cs (id t)) = true) ->
  t ∈ tys ->
  stored_choice this
    (store_all this (changes_of this cs ls tys) (migrate_all this tys ls)) (id t)
  = requested cs (id t).
Proof.
  intros Hb Ht.
  destruct (store_all_stored this cs (changes_of this cs ls tys)
              (migrate_all this tys ls) (id t)) as [Hl|[Hnot Hr]].
  { by apply changes_of_boolean. }
  { done. }
  rewrite Hr, stored_choice_migrate_all.
  destruct (changed this cs ls t) eqn:Hc.
  - exfalso. apply Hnot. apply list_elem_of_fmap.
    exists (mk_change this cs ls t). split; [done|].
    by apply changes_of_member.
  - unfold changed in Hc. apply negb_false_iff, bool_decide_eq_true in Hc.
    by symmetry.
Qed.




Example revoke_example :
  batchUpdateConsents working_host (manager_of [necessary; analytics])
    refuse_analytics granted_page =
  (Ok true, denied_page,
   [gtag_consent_update {[ "analytics_storage" := "denied" ]};
    dataLayer_push "stcm_consent_update";
    call_onReject "analytics";
    setTimeout_reload 100]).
Proof. vm_compute. reflexivity. Qed.

(** ** C8: a requested map that omits a configured category *)

Lemma getConsentChoice_not_undefined host this typeId s v s' ev :
  getConsentChoice host this typeId s = (Ok v, s', ev) -> v <> JUndefined.
Proof.
  unfold getConsentChoice, bind.
  destruct (read_migrating host this _ _ s) as [[[o|e] s1] ev1]; [|discriminate].
  unfold ret. intros H. inversion H; subst. by destruct o.
Qed.

Lemma first_pass_records_undefined host this cs tys acc s d s1 ev1 :
  forEach_acc tys (detect host this cs) acc s = (Ok d, s1, ev1) ->
  has_undefined (changes acc) \/
  (exists ty, ty ∈ tys /\ requested cs (id ty) = JUndefined) ->
  has_undefined (changes d).
Proof.
  revert acc s d s1 ev1.
  induction tys as [|ty tys IH]; intros acc s d s1 ev1 Hrun H.
  - simpl in Hrun. unfold ret in Hrun. inversion Hrun; subst.
    destruct H as [H|(ty & Hty & _)]; [done | by apply elem_of_nil in Hty].
  - simpl in Hrun. unfold bind in Hrun.
    destruct (detect host this cs acc ty s) as [[[acc'|e] s'] ev'] eqn:Hdet;
      [|discriminate].
    destruct (forEach_acc tys _ acc' s') as [[r2 s2] ev2] eqn:Hrest.
    inversion Hrun; subst. apply (IH _ _ _ _ _ Hrest).
    unfold detect, bind in Hdet.
    destruct (getConsentChoice host this (id ty) s) as [[[prev|e] s3] ev3] eqn:Hget;
      [|discriminate].
    apply getConsentChoice_not_undefined in Hget.
    unfold ret in Hdet. inversion Hdet; subst. clear Hdet.
    assert (requested cs (id ty) = JUndefined ->
            has_undefined (changes (compare cs acc ty prev))) as Hnew.
    { intros Hu. unfold compare. rewrite Hu.
      rewrite bool_decide_eq_false_2 by congruence. simpl.
      eexists. split; [apply elem_of_app; right; apply list_elem_of_here | done]. }
    assert (has_undefined (changes acc) ->
            has_undefined (changes (compare cs acc ty prev))) as Hold.
    { intros (c & Hc & Hu). unfold compare. case_bool_decide; [by exists c|].
      simpl. exists c. split; [apply elem_of_app; by left | done]. }
    destruct H as [H|(ty' & Hty' & Hu)]; [left; by apply Hold|].
    apply elem_of_cons in Hty' as [->|Hty']; [left; by apply Hnew|].
    right. by exists ty'.
Qed.

Lemma second_pass_throws host this chs s :
  has_undefined chs ->
  exists msg s' ev, second_pass host this chs s = (Throw (TypeError msg), s', ev).
Proof.
  unfold second_pass. revert s.
  induction chs as [|c0 chs IH]; intros s (c & Hc & Hu).
  - by apply elem_of_nil in Hc.
  - simpl. destruct (newState c0) as [| |b] eqn:Hn.
    + eexists _, _, _. reflexivity.
    + eexists _, _, _. reflexivity.
    + destruct (re_setConsentChoice host this (id (type c0)) b s)
        as ([] & s1 & ev1 & E & _ & _).
      destruct (IH s1) as (msg & s' & ev & Hrest).
      { exists c. split; [|done].
        apply elem_of_cons in Hc as [->|Hc]; [congruence | done]. }
      exists msg, s', (ev1 ++ ev).
      by apply (bind_step _ _ _ _ _ _ _ _ _ E Hrest).
Qed.

(** On every host, a requested map that gives no value to some configured
    category makes [batchUpdateConsents] throw a [TypeError]. *)
Lemma omitted_category_throws host this cs s ty :
  ty ∈ consentTypes (config this) ->
  cs !! id ty = None ->
  exists msg s' ev,
    batchUpdateConsents host this cs s = (Throw (TypeError msg), s', ev).
Proof.
  intros Hty Hcs.
  destruct (re_first_pass host this cs s) as (d & s1 & ev1 & H1 & _ & _).
  assert (has_undefined (changes d)) as Hu.
  { unfold first_pass in H1. apply (first_pass_records_undefined _ _ _ _ _ _ _ _ _ H1).
    right. exists ty. split; [done|]. unfold requested. by rewrite Hcs. }
  assert (hasChanges d = true) as Hd.
  { rewrite (first_pass_summary host this cs s d s1 ev1 H1). simpl.
    destruct Hu as (c & Hc & _). destruct (changes d); [|done].
    by apply elem_of_nil in Hc. }
  destruct (second_pass_throws host this (changes d) s1 Hu) as (msg & s2 & ev2 & H2).
  exists msg, s2, (ev1 ++ ev2).
  by apply (batch_throws host this cs s d s1 ev1 _ s2 ev2).
Qed.

(** C8.  With the categories [analytics] and [marketing] configured, nothing
    stored, and a requested map that only mentions [analytics]:
    [batchUpdateConsents] stores the choice for [analytics] and then throws
    a [TypeError] out of [setConsentChoice] ([undefined.toString()]),
    before any integration call, event push or callback; the exception is
    not a configuration error and is raised after construction. *)
Theorem C8_omitted_category_escapes :
  batchUpdateConsents working_host (manager_of [analytics; marketing])
    accept_analytics empty_page =
  (Throw (TypeError "Cannot read properties of undefined (reading 'toString')"),
   page_with {[ "stcm.consent.analytics" := "true" ]},
   []) /\
  _validateConfig
    (Some {| arg_consentTypes := Some [analytics; marketing];
             arg_namespace := None; arg_eventName := None; arg_debug := None;
             arg_onAcceptAll := false; arg_onRejectAll := false |}) = Ok tt.
Proof. split; vm_compute; reflexivity. Qed.

(** * Further properties of the consent core *)

(** ** Writing and reading a choice *)

Lemma store_choice_idem this x b ls :
  store_choice this x b (store_choice this x b ls) = store_choice this x b ls.
Proof.
  unfold store_choice. apply map_eq. intros k.
  destruct (decide (_buildOldConsentKey this x = k)) as [<-|Ho].
  { by rewrite !lookup_delete_eq. }
  rewrite !(lookup_delete_ne _ _ _ Ho).
  destruct (decide (_buildConsentKey this x = k)) as [<-|Hn].
  { by rewrite !lookup_insert_eq. }
  by rewrite !(lookup_insert_ne _ _ _ _ Hn), (lookup_delete_ne _ _ _ Ho),
    (lookup_insert_ne _ _ _ _ Hn).
Qed.

(** X1.  On a working storage, [setConsentChoice] followed by
    [getConsentChoice] returns the boolean written and the read changes
    nothing; the write removes the legacy key of the category, leaves every
    other category's choice as it was, and is idempotent. *)
Theorem set_then_get_choice
    (host : Host) (this : Manager) (typeId : string) (b : bool) (s : Store) :
  storage_ok host this ->
  let w := setConsentChoice host this typeId (JBool b) s in
  result_of w = Ok tt /\ events_of w = [] /\
  getConsentChoice host this typeId (store_of w) = (Ok (JBool b), store_of w, []) /\
  localStorage (store_of w) !! _buildOldConsentKey this typeId = None /\
  (forall other, other <> typeId ->
     stored_choice this (localStorage (store_of w)) other =
     stored_choice this (localStorage s) other) /\
  setConsentChoice host this typeId (JBool b) (store_of w) = (Ok tt, store_of w, []).
Proof.
  intros Hok w. subst w. rewrite (setConsentChoice_ok host this Hok).
  unfold result_of, events_of, store_of. cbn [fst snd].
  set (s1 := set_localStorage (store_choice this typeId b) s).
  assert (localStorage s1 = store_choice this typeId b (localStorage s)) as Hs1
    by reflexivity.
  split; [done|]. split; [done|]. split; [|split; [|split]].
  - rewrite (getConsentChoice_ok host this Hok).
    rewrite (set_localStorage_same (migrate_choice this typeId)).
    + by rewrite Hs1, stored_choice_store_same.
    + apply migrate_choice_settled. rewrite Hs1. apply settled_store. by left.
  - rewrite Hs1. unfold store_choice. apply lookup_delete_eq.
  - intros other Hne. rewrite Hs1. by apply stored_choice_store_other.
  - rewrite (setConsentChoice_ok host this Hok).
    rewrite (set_localStorage_same (store_choice this typeId b)); [done|].
    rewrite Hs1. apply store_choice_idem.
Qed.

Lemma set_then_get_choice_witness :
  storage_ok working_host (manager_of [analytics]) /\
  getConsentChoice working_host (manager_of [analytics]) "analytics"
    (store_of (setConsentChoice working_host (manager_of [analytics]) "analytics"
                 (JBool false) legacy_page)) =
  (Ok (JBool false),
   store_of (setConsentChoice working_host (manager_of [analytics]) "analytics"
               (JBool false) legacy_page), []).
Proof.
  split; [apply working_host_ok|].
  destruct (set_then_get_choice working_host (manager_of [analytics]) "analytics"
              false legacy_page (working_host_ok _)) as (_ & _ & H & _).
  exact H.
Defined.

(** ** The rejected-consents summary *)

Lemma rejected_map_ext this ls1 ls2 tys acc :
  (forall x, stored_choice this ls1 x = stored_choice this ls2 x) ->
  rejected_map this ls1 tys acc = rejected_map this ls2 tys acc.
Proof.
  intros H. unfold rejected_map. revert acc.
  induction tys as [|ty tys IH]; intros acc; simpl; [done|].
  by rewrite H, IH.
Qed.

Lemma rejected_map_lookup this ls tys acc x :
  rejected_map this ls tys acc !! x =
    if decide (x ∈ map id tys)
    then Some (JBool (bool_decide (stored_choice this ls x = JBool false)))
    else acc !! x.
Proof.
  unfold rejected_map. revert acc.
  induction tys as [|ty tys IH]; intros acc; simpl.
  - destruct (decide (x ∈ [])) as [H|H]; [by apply elem_of_nil in H | done].
  - rewrite IH.
    destruct (decide (x ∈ map id tys)) as [H1|H1];
      destruct (decide (x ∈ id ty :: map id tys)) as [H2|H2]; try done.
    + exfalso. apply H2, elem_of_cons. by right.
    + apply elem_of_cons in H2 as [->|H2]; [|done]. by rewrite lookup_insert_eq.
    + apply not_elem_of_cons in H2 as [H2 _]. by rewrite lookup_insert_ne.
Qed.

Lemma getRejectedConsents_ok host this s :
  storage_ok host this ->
  getRejectedConsents host this s =
    (Ok (rejected_map this (localStorage s) (consentTypes (config this)) ∅),
     set_localStorage (migrate_all this (consentTypes (config this))) s, []).
Proof.
  intros Hok. unfold getRejectedConsents.
  generalize (∅ : gmap string jsval) as acc.
  revert s. induction (consentTypes (config this)) as [|ty tys IH]; intros s acc.
  - simpl. unfold ret. by rewrite set_localStorage_id.
  - cbn [forEach_acc].
    rewrite (bind_silent _ _ _
               (<[id ty := JBool (bool_decide
                    (stored_choice this (localStorage s) (id ty) = JBool false))]> acc)
               (set_localStorage (migrate_choice this (id ty)) s)).
    + rewrite IH.
      rewrite (rejected_map_ext this _ (localStorage s));
        [reflexivity | intros x; apply stored_choice_migrate].
    + by rewrite (bind_silent _ _ _ _ _ (getConsentChoice_ok host this Hok _ _)).
Qed.

(** X2.  On a working storage [getRejectedConsents] maps every configured
    category to a boolean: [true] exactly when its stored choice is Denied,
    and [false] both when it is Granted and when it was never decided. *)
Theorem rejected_consents_are_boolean
    (host : Host) (this : Manager) (s : Store) (ty : ConsentType) :
  storage_ok host this ->
  ty ∈ consentTypes (config this) ->
  exists m,
    result_of (getRejectedConsents host this s) = Ok m /\
    events_of (getRejectedConsents host this s) = [] /\
    m !! id ty =
      Some (JBool (match choice this (localStorage s) (id ty) with
                   | Denied => true
                   | Granted | Unset => false
                   end)).
Proof.
  intros Hok Hty. rewrite (getRejectedConsents_ok host this s Hok).
  eexists. split; [reflexivity|]. split; [reflexivity|].
  rewrite rejected_map_lookup.
  rewrite decide_True by (apply list_elem_of_fmap; eauto).
  unfold choice.
  by destruct (stored_choice this (localStorage s) (id ty)) as [| |[|]].
Qed.

Lemma rejected_consents_are_boolean_witness :
  exists m,
    result_of (getRejectedConsents working_host (manager_of [necessary; analytics])
                 empty_page) = Ok m /\
    m !! "analytics" = Some (JBool false).
Proof.
  destruct (rejected_consents_are_boolean working_host
              (manager_of [necessary; analytics]) empty_page
              analytics (working_host_ok _)) as (m & Hm & _ & Hv).
  - apply list_elem_of_further, list_elem_of_here.
  - exists m. split; [exact Hm | exact Hv].
Defined.

(** ** The has-consented flag and the choices *)

Section FlagKeys.

Variable this : Manager.

Lemma consent_key_not_flag x :
  _buildConsentKey this x <> _buildHasConsentedKey this.
Proof.
  unfold _buildConsentKey, _buildHasConsentedKey. intros H.
  do 2 apply String.app_inj in H. inversion H.
Qed.

Lemma consent_key_not_old_flag x :
  _buildConsentKey this x <> _buildOldHasConsentedKey this.
Proof.
  unfold _buildConsentKey, _buildOldHasConsentedKey. intros H. inversion H.
Qed.

Lemma old_consent_key_not_flag x :
  _buildOldConsentKey this x <> _buildHasConsentedKey this.
Proof.
  unfold _buildOldConsentKey, _buildHasConsentedKey. intros H. inversion H.
Qed.

Lemma old_consent_key_not_old_flag x :
  _buildOldConsentKey this x <> _buildOldHasConsentedKey this.
Proof.
  unfold _buildOldConsentKey, _buildOldHasConsentedKey. intros H. inversion H.
Qed.

(** A change of the storage that leaves a category's two keys alone leaves
    its stored choice alone. *)
Lemma stored_choice_same_keys ls1 ls2 x :
  ls1 !! _buildConsentKey this x = ls2 !! _buildConsentKey this x ->
  ls1 !! _buildOldConsentKey this x = ls2 !! _buildOldConsentKey this x ->
  stored_choice this ls1 x = stored_choice this ls2 x.
Proof. intros H1 H2. unfold stored_choice, read. by rewrite H1, H2. Qed.

Lemma stored_choice_mark ls x :
  stored_choice this
    (delete (_buildOldHasConsentedKey this) (<[_buildHasConsentedKey this := "1"]> ls)) x
  = stored_choice this ls x.
Proof.
  apply stored_choice_same_keys.
  - rewrite lookup_delete_ne, lookup_insert_ne; [done|..].
    + intros H. symmetry in H. by apply consent_key_not_flag in H.
    + intros H. symmetry in H. by apply consent_key_not_old_flag in H.
  - rewrite lookup_delete_ne, lookup_insert_ne; [done|..].
    + intros H. symmetry in H. by apply old_consent_key_not_flag in H.
    + intros H. symmetry in H. by apply old_consent_key_not_old_flag in H.
Qed.

Lemma stored_choice_flag_migrate ls x :
  stored_choice this
    (migrate (_buildHasConsentedKey this) (_buildOldHasConsentedKey this) ls) x
  = stored_choice this ls x.
Proof.
  unfold migrate.
  destruct (ls !! _buildHasConsentedKey this); [done|].
  destruct (ls !! _buildOldHasConsentedKey this); [|done].
  apply stored_choice_same_keys.
  - rewrite lookup_delete_ne, lookup_insert_ne; [done|..].
    + intros H. symmetry in H. by apply consent_key_not_flag in H.
    + intros H. symmetry in H. by apply consent_key_not_old_flag in H.
  - rewrite lookup_delete_ne, lookup_insert_ne; [done|..].
    + intros H. symmetry in H. by apply old_consent_key_not_flag in H.
    + intros H. symmetry in H. by apply old_consent_key_not_old_flag in H.
Qed.

End FlagKeys.

(** X3.  On a working storage, after [setHasConsented] the flag reads
    [true] and the read changes nothing; neither marking nor reading the
    flag changes the stored choice of any category, and a flag stored only
    under the legacy key is moved to the current key by the first read. *)
Theorem consented_flag_round_trip
    (host : Host) (this : Manager) (s : Store) :
  storage_ok host this ->
  let w := setHasConsented host this s in
  let r := getHasConsented host this s in
  getHasConsented host this (store_of w) = (Ok true, store_of w, []) /\
  (forall x, stored_choice this (localStorage (store_of w)) x =
             stored_choice this (localStorage s) x) /\
  (forall x, stored_choice this (localStorage (store_of r)) x =
             stored_choice this (localStorage s) x) /\
  (forall v,
     localStorage s !! _buildHasConsentedKey this = None ->
     localStorage s !! _buildOldHasConsentedKey this = Some v ->
     result_of r = Ok true /\
     localStorage (store_of r) !! _buildHasConsentedKey this = Some v /\
     localStorage (store_of r) !! _buildOldHasConsentedKey this = None).
Proof.
  intros Hok w r. subst w r.
  rewrite (setHasConsented_ok host this s Hok), (getHasConsented_ok host this s Hok).
  unfold result_of, store_of. cbn [fst snd].
  pose proof (hasConsented_key_not_old this) as Hne.
  split; [|split; [|split]].
  - rewrite (getHasConsented_ok host this _ Hok).
    set (s1 := set_localStorage _ s).
    assert (localStorage s1 !! _buildHasConsentedKey this = Some "1") as Hnew.
    { subst s1. unfold set_localStorage. cbn [localStorage].
      by rewrite lookup_delete_ne, lookup_insert_eq. }
    rewrite set_localStorage_same.
    + unfold read. by rewrite Hnew.
    + unfold migrate. by rewrite Hnew.
  - intros x. apply stored_choice_mark.
  - intros x. apply stored_choice_flag_migrate.
  - intros v Hn Ho. unfold set_localStorage, read, migrate. cbn [localStorage].
    rewrite Hn, Ho. split; [done|].
    split; [by rewrite lookup_delete_ne, lookup_insert_eq | by rewrite lookup_delete_eq].
Qed.

Lemma consented_flag_round_trip_witness :
  storage_ok working_host (manager_of [analytics]) /\
  getHasConsented working_host (manager_of [analytics])
    (store_of (setHasConsented working_host (manager_of [analytics]) empty_page)) =
  (Ok true,
   store_of (setHasConsented working_host (manager_of [analytics]) empty_page), []).
Proof.
  split; [apply working_host_ok|].
  destruct (consented_flag_round_trip working_host (manager_of [analytics])
              empty_page (working_host_ok _)) as (H & _).
  exact H.
Defined.

(** ** Reset *)

Lemma prefix_append (p x : string) : String.prefix p (p +:+ x) = true.
Proof.
  induction p as [|c p IH]; [by destruct x|].
  change (String c p +:+ x) with (String c (p +:+ x)). cbn [String.prefix].
  by destruct (Ascii.ascii_dec c c).
Qed.

Lemma is_consent_key_stcm x : is_consent_key ("stcm." +:+ x) = true.
Proof.
  unfold is_consent_key. rewrite (prefix_append "stcm." x).
  by rewrite !orb_true_r.
Qed.

Lemma is_consent_key_choice x : is_consent_key ("silktideCookieChoice_" +:+ x) = true.
Proof.
  unfold is_consent_key. rewrite (prefix_append "silktideCookieChoice_" x).
  by rewrite orb_true_r.
Qed.

Lemma is_consent_key_banner x : is_consent_key ("silktideCookieBanner_" +:+ x) = true.
Proof.
  unfold is_consent_key. by rewrite (prefix_append "silktideCookieBanner_" x).
Qed.

Lemma remove_keys_lookup host keys (ls : gmap string string) k :
  remove_keys host keys ls !! k =
    if bool_decide (k ∈ keys) && negb (removeItem_throws host k) then None
    else ls !! k.
Proof.
  unfold remove_keys. revert ls.
  induction keys as [|a keys IH]; intros ls; cbn [fold_left].
  - rewrite bool_decide_eq_false_2; [done|]. by intros H%elem_of_nil.
  - rewrite IH. destruct (decide (k ∈ keys)) as [Hin|Hin].
    + rewrite !bool_decide_eq_true_2; [|by apply list_elem_of_further|done].
      destruct (removeItem_throws host k) eqn:Hk; [|done]. simpl.
      destruct (removeItem_throws host a) eqn:Ha; [done|].
      rewrite lookup_delete_ne; [done|]. intros ->. congruence.
    + rewrite (bool_decide_eq_false_2 _ Hin). simpl.
      destruct (decide (k = a)) as [->|Hne].
      * rewrite bool_decide_eq_true_2 by apply list_elem_of_here. simpl.
        destruct (removeItem_throws host a); [done|]. simpl.
        apply lookup_delete_eq.
      * rewrite bool_decide_eq_false_2 by (intros [?|?]%elem_of_cons; done).
        simpl. destruct (removeItem_throws host a); [done|].
        by rewrite lookup_delete_ne.
Qed.

Lemma remove_each_run host this keys s :
  localStorageAvailable this = true ->
  forEach keys (fun key =>
    bind (_removeLocalStorageItem host this key) (fun _ => ret tt)) s =
    (Ok tt, set_localStorage (remove_keys host keys) s, removal_warnings host keys).
Proof.
  intros Ha. revert s. induction keys as [|a keys IH]; intros s.
  - simpl. unfold ret. by rewrite set_localStorage_id.
  - cbn [forEach].
    assert (bind (_removeLocalStorageItem host this a) (fun _ => ret tt) s =
              (Ok tt,
               set_localStorage
                 (fun ls => if removeItem_throws host a then ls else delete a ls) s,
               if removeItem_throws host a then [warn_remove] else [])) as E1.
    { unfold bind. rewrite _removeLocalStorageItem_eq, Ha.
      destruct (removeItem_throws host a); [by rewrite set_localStorage_id | done]. }
    by rewrite (bind_step _ _ _ _ _ _ _ _ _ E1 (IH _)).
Qed.

Lemma removal_warnings_are_warnings host keys :
  Forall (fun e => is_warning e = true) (removal_warnings host keys).
Proof.
  unfold removal_warnings. induction keys as [|a keys IH]; simpl; [constructor|].
  apply Forall_app. split; [|done].
  destruct (removeItem_throws host a); by repeat constructor.
Qed.

Lemma removal_warnings_none host keys :
  (forall k, removeItem_throws host k = false) -> removal_warnings host keys = [].
Proof.
  intros H. unfold removal_warnings. induction keys as [|a keys IH]; simpl; [done|].
  by rewrite H, IH.
Qed.

Lemma clearAllConsents_run host this s :
  localStorageAvailable this = true ->
  clearAllConsents host this false s =
    (Ok tt,
     set_localStorage
       (remove_keys host
          (List.filter is_consent_key (map fst (map_to_list (localStorage s))))) s,
     removal_warnings host
       (List.filter is_consent_key (map fst (map_to_list (localStorage s))))).
Proof.
  intros Ha. unfold clearAllConsents, try_catch. rewrite Ha. cbn [negb].
  rewrite (bind_silent _ _ s (map fst (map_to_list (localStorage s))) s)
    by reflexivity.
  by rewrite remove_each_run.
Qed.

Lemma stored_keys_filtered (ls : gmap string string) k :
  k ∈ List.filter is_consent_key (map fst (map_to_list ls)) <->
  is_consent_key k = true /\ is_Some (ls !! k).
Proof.
  rewrite list_elem_of_In, List.filter_In, <- list_elem_of_In, list_elem_of_fmap.
  split.
  - intros [([k' v] & -> & Hkv) Hc]. split; [done|].
    apply elem_of_map_to_list in Hkv. simpl. eauto.
  - intros [Hc [v Hv]]. split; [|done].
    exists (k, v). split; [done|]. by apply elem_of_map_to_list.
Qed.

(** The keys [clearAllConsents] removes, on every host. *)
Lemma clearAllConsents_effect
    (host : Host) (this : Manager) (enumeration_throws : bool) (s : Store) :
  exists s' evs,
    clearAllConsents host this enumeration_throws s = (Ok tt, s', evs) /\
    Forall (fun e => is_warning e = true) evs /\
    document_scripts s' = document_scripts s /\
    forall k,
      localStorage s' !! k =
        if localStorageAvailable this && negb enumeration_throws &&
           is_consent_key k && negb (removeItem_throws host k)
        then None else localStorage s !! k.
Proof.
  destruct (localStorageAvailable this) eqn:Ha.
  2:{ exists s, []. unfold clearAllConsents. rewrite Ha.
      repeat split; constructor. }
  destruct enumeration_throws.
  { exists s, []. unfold clearAllConsents, try_catch, bind, localStorage_keys.
    rewrite Ha. repeat split; constructor. }
  rewrite (clearAllConsents_run host this s Ha).
  eexists _, _. split; [reflexivity|].
  split; [apply removal_warnings_are_warnings|]. split; [done|].
  intros k. cbn [localStorage set_localStorage andb negb].
  rewrite remove_keys_lookup.
  destruct (is_consent_key k) eqn:Hc; cbn [andb].
  - destruct (localStorage s !! k) eqn:Hk.
    + rewrite bool_decide_eq_true_2; [done|].
      apply (proj2 (stored_keys_filtered _ _)). split; [done | eauto].
    + by destruct (bool_decide _), (removeItem_throws host k).
  - rewrite bool_decide_eq_false_2; [done|].
    intros [Hc' _]%stored_keys_filtered. congruence.
Qed.

(** X4.  [clearAllConsents] returns normally on every host.  When storage
    is available and its keys can be enumerated, it removes every key that
    starts with [silktideCookieBanner_], [silktideCookieChoice_] or
    [stcm.] and whose removal does not throw, and leaves every other key
    as it is; when storage is unavailable or the enumeration throws, it
    changes nothing.  It only ever logs warnings and never touches the
    document. *)
Theorem clearAllConsents_removes_consent_keys
    (host : Host) (this : Manager) (enumeration_throws : bool) (s : Store) :
  exists s' evs,
    clearAllConsents host this enumeration_throws s = (Ok tt, s', evs) /\
    Forall (fun e => is_warning e = true) evs /\
    document_scripts s' = document_scripts s /\
    forall k,
      localStorage s' !! k =
        if localStorageAvailable this && negb enumeration_throws &&
           is_consent_key k && negb (removeItem_throws host k)
        then None else localStorage s !! k.
Proof. apply clearAllConsents_effect. Qed.

(** X5.  After [clearAllConsents] on a working storage whose keys can be
    enumerated, every category reads as never decided and the
    has-consented flag reads as unset, for this instance and for an
    instance with any other namespace; keys that belong to neither key
    family are kept. *)
Theorem clearAllConsents_forgets_everything
    (host : Host) (this other : Manager) (typeId : string) (s : Store) :
  storage_ok host this ->
  let r := clearAllConsents host this false s in
  result_of r = Ok tt /\ events_of r = [] /\
  choice other (localStorage (store_of r)) typeId = Unset /\
  localStorage (store_of r) !! _buildHasConsentedKey other = None /\
  localStorage (store_of r) !! _buildOldHasConsentedKey other = None /\
  getConsentChoice host this typeId (store_of r) = (Ok JNull, store_of r, []) /\
  getHasConsented host this (store_of r) = (Ok false, store_of r, []) /\
  (forall k, is_consent_key k = false ->
     localStorage (store_of r) !! k = localStorage s !! k).
Proof.
  intros Hok r. subst r.
  destruct (clearAllConsents_effect host this false s)
    as (s' & evs & E & F & _ & Hl).
  rewrite E. unfold result_of, events_of, store_of. cbn [fst snd].
  destruct Hok as (Ha & Hg & Hs & Hr).
  assert (forall k, is_consent_key k = true -> localStorage s' !! k = None) as Hgone.
  { intros k Hk. by rewrite Hl, Ha, Hk, Hr. }
  assert (evs = []) as ->.
  { rewrite (clearAllConsents_run host this s Ha) in E.
    rewrite (removal_warnings_none host _ Hr) in E. by inversion E. }
  assert (forall m x, stored_choice m (localStorage s') x = JNull) as Hnull.
  { intros m x. unfold stored_choice, read.
    rewrite (Hgone (_buildConsentKey m x)) by apply is_consent_key_stcm.
    by rewrite (Hgone (_buildOldConsentKey m x)) by apply is_consent_key_choice. }
  assert (storage_ok host this) as Hok by done.
  split; [done|]. split; [done|].
  split. { unfold choice. by rewrite Hnull. }
  split. { apply Hgone, is_consent_key_stcm. }
  split. { apply Hgone, is_consent_key_banner. }
  split.
  { rewrite (getConsentChoice_ok host this Hok), Hnull.
    rewrite set_localStorage_same; [done|].
    apply migrate_choice_settled. right. apply Hgone, is_consent_key_choice. }
  split.
  { rewrite (getHasConsented_ok host this _ Hok).
    rewrite set_localStorage_same.
    - unfold read.
      rewrite (Hgone (_buildHasConsentedKey this)) by apply is_consent_key_stcm.
      rewrite (Hgone (_buildOldHasConsentedKey this)) by apply is_consent_key_banner.
      rewrite bool_decide_eq_false_2; [done|]. by intros [? ?].
    - unfold migrate.
      rewrite (Hgone (_buildHasConsentedKey this)) by apply is_consent_key_stcm.
      by rewrite (Hgone (_buildOldHasConsentedKey this))
        by apply is_consent_key_banner. }
  intros k Hk. by rewrite Hl, Hk, andb_false_r.
Qed.

Lemma clearAllConsents_forgets_everything_witness :
  storage_ok working_host (manager_of [analytics]) /\
  choice shop_manager
    (localStorage (store_of (clearAllConsents working_host (manager_of [analytics])
                               false mixed_page))) "analytics" = Unset /\
  localStorage (store_of (clearAllConsents working_host (manager_of [analytics])
                            false mixed_page)) !! "theme" = Some "dark".
Proof.
  split; [apply working_host_ok|].
  destruct (clearAllConsents_forgets_everything working_host (manager_of [analytics])
              shop_manager "analytics" mixed_page (working_host_ok _))
    as (_ & _ & Hc & _ & _ & _ & _ & Hk).
  split; [exact Hc|]. rewrite (Hk "theme"); vm_compute; reflexivity.
Defined.

Example reset_example :
  clearAllConsents working_host (manager_of [analytics]) false mixed_page =
    (Ok tt, page_with {[ "theme" := "dark" ]}, []).
Proof. vm_compute. reflexivity. Qed.

(** ** Namespaces *)





(** The separation is per category identifier: with dots in identifiers, a
    category of one namespace can share its key with another category of
    another namespace. *)
Example namespaces_can_collide_across_categories :
  _buildConsentKey
    {| config := {| consentTypes := []; namespace := Some "a";
                    eventName := ""; debug := false;
                    onAcceptAll := false; onRejectAll := false |};
       localStorageAvailable := true |} "consent.x" =
  _buildConsentKey
    {| config := {| consentTypes := []; namespace := Some "a.consent";
                    eventName := ""; debug := false;
                    onAcceptAll := false; onRejectAll := false |};
       localStorageAvailable := true |} "x".
Proof. vm_compute. reflexivity. Qed.

(** ** When storage is unavailable *)

Section Unavailable.

Variable host : Host.
Variable this : Manager.
Hypothesis Hunavailable : localStorageAvailable this = false.








End Unavailable.



(** ** Script injection *)


Lemma _injectScript_run sc consentId s :
  _injectScript sc consentId s =
    (Ok tt, set_document (fun doc => inject_one consentId doc sc) s,
     if url_missing sc then [warn_script_url] else []).
Proof.
  unfold _injectScript, inject_one, url_missing, set_document, emit.
  destruct s as [ls doc]. cbn [localStorage document_scripts].
  destruct (url sc) as [u|]; [|done].
  destruct (String.eqb u ""); [done|].
  unfold has_src. cbn [localStorage document_scripts].
  destruct (existsb _ doc); reflexivity.
Qed.

Lemma _injectConsentScripts_run ty s :
  _injectConsentScripts ty s =
    (Ok tt, set_document (inject_all (id ty) (descriptors ty)) s,
     missing_url_warnings (descriptors ty)).
Proof.
  unfold _injectConsentScripts, descriptors.
  destruct (scripts ty) as [l|]; cbn [default].
  2:{ unfold ret, set_document. by destruct s. }
  revert s. induction l as [|sc l IH]; intros s.
  - unfold ret, set_document. by destruct s.
  - cbn [forEach].
    by rewrite (bind_step _ _ _ _ _ _ _ _ _ (_injectScript_run sc (id ty) s) (IH _)).
Qed.












Example inject_twice :
  document_scripts (store_of (_injectConsentScripts analytics
     (store_of (_injectConsentScripts analytics empty_page)))) =
  [ {| el_src := "https://example.com/tracker.js"; el_consentId := "analytics";
       el_async := true; el_defer := false; el_type := None;
       el_crossOrigin := None; el_integrity := None |} ].
Proof. vm_compute. reflexivity. Qed.

(** ** The whole of a batched update *)

Lemma third_pass_run chs s :
  third_pass chs s = (Ok tt, set_document (inject_changes chs) s, third_events chs).
Proof.
  unfold third_pass, third_events, inject_changes. revert s.
  induction chs as [|c chs IH]; intros s.
  - unfold ret, set_document. by destruct s.
  - cbn [forEach flat_map fold_left].
    assert ((if truthy (newState c) then
               bind (_injectConsentScripts (type c)) (fun _ =>
                 if onAccept (type c) then emit (call_onAccept (id (type c)))
                 else ret tt)
             else
               if onReject (type c) then emit (call_onReject (id (type c)))
               else ret tt) s =
            (Ok tt,
             set_document
               (fun doc => if truthy (newState c)
                           then inject_all (id (type c)) (descriptors (type c)) doc
                           else doc) s,
             third_events_of c)) as E1.
    { unfold third_events_of, callback_of. destruct (truthy (newState c)).
      - rewrite (bind_run _ _ _ _ _ _ (_injectConsentScripts_run (type c) s)).
        by destruct (onAccept (type c)).
      - unfold set_document. destruct s. by destruct (onReject (type c)). }
    by rewrite (bind_step _ _ _ _ _ _ _ _ _ E1 (IH _)).
Qed.

(** The three passes of a batched update, run on a working storage. *)
Lemma batch_run
    (host : Host) (this : Manager) (cs : gmap string jsval) (s : Store) :
  storage_ok host this ->
  (forall ty, ty ∈ consentTypes (config this) ->
     is_boolean (requested cs (id ty)) = true) ->
  batchUpdateConsents host this cs s = batch_outcome host this cs s.
Proof.
  intros Hok Hb. unfold batch_outcome.
  pose proof (first_pass_ok host this Hok cs s) as H1.
  set (tys := consentTypes (config this)) in *.
  set (chs := changes_of this cs (localStorage s) tys) in *.
  assert (Forall (fun c => is_boolean (newState c) = true) chs) as Hbool.
  { apply Forall_forall. intros c Hc. apply list_elem_of_In in Hc.
    by apply (changes_of_boolean this cs (localStorage s) tys Hb c). }
  destruct chs as [|c0 chs'] eqn:Hchs.
  - by apply (batch_unchanged host this cs s _ _ _ H1).
  - rewrite <- Hchs in *.
    pose proof (second_pass_ok host this Hok chs
                  (set_localStorage (migrate_all this tys) s) Hbool) as H2.
    rewrite (batch_changed host this cs s _ _ _ _ _ _ _ H1
               ltac:(by rewrite Hchs) H2 (third_pass_run _ _)).
    reflexivity.
Qed.



Example first_choice_run :
  batchUpdateConsents working_host (manager_of [necessary; analytics; marketing])
    first_choice empty_page =
  (Ok true,
   {| localStorage := {[ "stcm.consent.necessary" := "true";
                         "stcm.consent.analytics" := "true";
                         "stcm.consent.marketing" := "false" ]};
      document_scripts := [new_script tracker "analytics" "https://example.com/tracker.js"] |},
   [gtag_consent_update {[ "analytics_storage" := "granted";
                           "ad_storage" := "denied"; "ad_user_data" := "denied" ]};
    dataLayer_push "stcm_consent_update";
    call_onAccept "analytics"]).
Proof. vm_compute. reflexivity. Qed.

Lemma migrate_lookup_other n o (ls : gmap string string) k :
  k <> n -> k <> o -> migrate n o ls !! k = ls !! k.
Proof.
  intros Hn Ho. unfold migrate.
  destruct (ls !! n); [done|]. destruct (ls !! o); [|done].
  by rewrite lookup_delete_ne, lookup_insert_ne.
Qed.

Lemma migrate_all_foreign this tys ls k :
  foreign_key this k -> migrate_all this tys ls !! k = ls !! k.
Proof.
  intros Hk. unfold migrate_all. revert ls.
  induction tys as [|ty tys IH]; intros ls; simpl; [done|].
  rewrite IH. unfold migrate_choice.
  destruct (Hk (id ty)). by apply migrate_lookup_other.
Qed.

Lemma store_all_foreign this chs ls k :
  foreign_key this k -> store_all this chs ls !! k = ls !! k.
Proof.
  intros Hk. unfold store_all. revert ls.
  induction chs as [|c chs IH]; intros ls; simpl; [done|].
  rewrite IH. unfold store_choice.
  destruct (Hk (id (type c))). by rewrite lookup_delete_ne, lookup_insert_ne.
Qed.

Lemma flag_keys_foreign this :
  foreign_key this (_buildHasConsentedKey this) /\
  foreign_key this (_buildOldHasConsentedKey this).
Proof.
  split; intros x; split; intros H; symmetry in H.
  - by apply consent_key_not_flag in H.
  - by apply old_consent_key_not_flag in H.
  - by apply consent_key_not_old_flag in H.
  - by apply old_consent_key_not_old_flag in H.
Qed.

Lemma store_all_untouched this chs ls x :
  x ∉ map change_id chs ->
  stored_choice this (store_all this chs ls) x = stored_choice this ls x.
Proof.
  unfold store_all. revert ls. induction chs as [|c chs IH]; intros ls Hx; simpl.
  - done.
  - simpl in Hx. apply not_elem_of_cons in Hx as [Hne Hx].
    rewrite IH by done. apply stored_choice_store_other.
    unfold change_id in Hne. congruence.
Qed.

Lemma changes_of_ids this cs ls tys x :
  x ∈ map change_id (changes_of this cs ls tys) -> x ∈ map id tys.
Proof.
  unfold changes_of. intros (c & -> & Hc)%list_elem_of_fmap.
  apply list_elem_of_fmap in Hc as (ty & -> & Hty).
  apply list_elem_of_In, List.filter_In in Hty as [Hty _].
  apply list_elem_of_fmap. exists ty. split; [done | by apply list_elem_of_In].
Qed.

Lemma batch_outcome_storage host this cs s :
  localStorage (store_of (batch_outcome host this cs s)) =
    store_all this
      (changes_of this cs (localStorage s) (consentTypes (config this)))
      (migrate_all this (consentTypes (config this)) (localStorage s)).
Proof.
  unfold batch_outcome.
  destruct (changes_of _ _ _ _) eqn:Hc; [|reflexivity].
  reflexivity.
Qed.

(** X10.  On a working storage, after [batchUpdateConsents] with a boolean
    for every configured category, every configured category is stored as
    requested; the choice of a category that is not configured, the
    has-consented flag and every key outside the consent key families are
    as before. *)
Theorem batch_stores_what_was_requested
    (host : Host) (this : Manager) (cs : gmap string jsval) (s : Store) :
  storage_ok host this ->
  (forall ty, ty ∈ consentTypes (config this) ->
     is_boolean (requested cs (id ty)) = true) ->
  let s' := store_of (batchUpdateConsents host this cs s) in
  (forall ty, ty ∈ consentTypes (config this) ->
     getConsentChoice host this (id ty) s' = (Ok (requested cs (id ty)), s', [])) /\
  (forall x, x ∉ map id (consentTypes (config this)) ->
     stored_choice this (localStorage s') x = stored_choice this (localStorage s) x) /\
  (forall k, foreign_key this k -> localStorage s' !! k = localStorage s !! k) /\
  localStorage s' !! _buildHasConsentedKey this =
    localStorage s !! _buildHasConsentedKey this.
Proof.
  intros Hok Hb s'. subst s'.
  rewrite (batch_run host this cs s Hok Hb).
  set (s' := store_of (batch_outcome host this cs s)).
  pose proof (batch_outcome_storage host this cs s) as Hs'. fold s' in Hs'.
  assert (forall k, foreign_key this k -> localStorage s' !! k = localStorage s !! k)
    as Hforeign.
  { intros k Hk. by rewrite Hs', store_all_foreign, migrate_all_foreign. }
  split; [|split; [|split]].
  - intros ty Hty. rewrite (getConsentChoice_ok host this Hok).
    rewrite set_localStorage_same.
    + by rewrite Hs', stored_after_batch.
    + apply migrate_choice_settled. rewrite Hs'.
      apply settled_store_all, settled_migrate_all. left.
      apply list_elem_of_fmap. eauto.
  - intros x Hx. rewrite Hs', store_all_untouched, stored_choice_migrate_all; [done|].
    intros Hin. by apply Hx, (changes_of_ids this cs (localStorage s)).
  - exact Hforeign.
  - apply Hforeign, flag_keys_foreign.
Qed.

Lemma batch_stores_what_was_requested_witness :
  storage_ok working_host (manager_of [necessary; analytics]) /\
  getConsentChoice working_host (manager_of [necessary; analytics]) "analytics"
    (store_of (batchUpdateConsents working_host (manager_of [necessary; analytics])
                 refuse_analytics granted_page)) =
  (Ok (JBool false),
   store_of (batchUpdateConsents working_host (manager_of [necessary; analytics])
               refuse_analytics granted_page), []).
Proof.
  split; [apply working_host_ok|].
  destruct (batch_stores_what_was_requested working_host
              (manager_of [necessary; analytics]) refuse_analytics granted_page
              (working_host_ok _)) as (H & _).
  - intros t Ht.
    apply elem_of_cons in Ht as [->|Ht]; [vm_compute; reflexivity|].
    apply elem_of_cons in Ht as [->|Ht]; [vm_compute; reflexivity|].
    by apply elem_of_nil in Ht.
  - apply (H analytics). apply list_elem_of_further, list_elem_of_here.
Defined.

(** ** Callbacks and scripts of a batched update *)












(** ** Accept all / reject all, end to end *)







(** ** Page load *)

Section Load.

Variable host : Host.
Variable this : Manager.
Hypothesis Hok : storage_ok host this.




End Load.











Example first_load :
  runConsentCallbacksOnLoad working_host (manager_of [necessary; analytics; marketing])
    empty_page =
  (Ok tt, page_with {[ "stcm.consent.necessary" := "true" ]}, []).
Proof. vm_compute. reflexivity. Qed.










Example return_visit :
  runConsentCallbacksOnLoad working_host (manager_of [necessary; analytics; marketing])
    granted_page =
  (Ok tt,
   {| localStorage := localStorage granted_page;
      document_scripts := [new_script tracker "analytics" "https://example.com/tracker.js"] |},
   [call_onAccept "analytics";
    gtag_consent_update {[ "analytics_storage" := "granted" ]};
    dataLayer_push "stcm_consent_update"]).
Proof. vm_compute. reflexivity. Qed.

(** ** The signals of a page load *)













Example denied_return_visit :
  runConsentCallbacksOnLoad working_host (manager_of [necessary; analytics; marketing])
    denied_page =
  (Ok tt, denied_page,
   [call_onReject "analytics";
    gtag_consent_update {[ "analytics_storage" := "denied" ]}]).
Proof. vm_compute. reflexivity. Qed.

(** ** Whatever the storage does *)



















(** ** Per-category integration *)

Lemma triggerConsentIntegration_run host this ty accepted s :
  triggerConsentIntegration host this ty accepted s =
    (Ok tt, s, trigger_events host this ty accepted).
Proof.
  unfold triggerConsentIntegration, trigger_events, consentState.
  destruct (gtagParams (gtag ty)) as [params|]; [|done].
  unfold bind, emit, ret.
  destruct (gtag_is_function host); [done|].
  destruct (bool_decide ("analytics_storage" ∈ params)); [|done].
  by destruct (silktide_is_function host).
Qed.

(** X19.  On every host [triggerConsentIntegration] returns normally and
    leaves the store alone.  For a category without [gtag] setting it calls
    nothing.  Otherwise it pushes the event exactly once, last, whether the
    category is accepted or not; before it, it makes one integration call
    when the integration function is defined, with a payload that gives
    every listed identifier granted for a truthy state and denied otherwise
    (a choice never made counts as denied), and only when that function is
    missing, the category lists [analytics_storage] and the Silktide
    function is defined, one fallback call. *)
Theorem triggerConsentIntegration_pushes_once
    (host : Host) (this : Manager) (ty : ConsentType) (accepted : jsval) (s : Store) :
  let r := triggerConsentIntegration host this ty accepted s in
  let evs := events_of r in
  result_of r = Ok tt /\ store_of r = s /\
  (gtagParams (gtag ty) = None -> evs = []) /\
  (forall params, gtagParams (gtag ty) = Some params ->
     List.filter is_push evs = [dataLayer_push (eventName (config this))] /\
     list.last evs = Some (dataLayer_push (eventName (config this))) /\
     (exists upd : gmap string string,
        (forall p, upd !! p =
           if bool_decide (p ∈ params)
           then Some (if truthy accepted then "granted" else "denied") else None) /\
        List.filter is_gtag evs =
          (if gtag_is_function host then [gtag_consent_update upd] else [])) /\
     List.filter is_silktide evs =
       (if negb (gtag_is_function host) && bool_decide ("analytics_storage" ∈ params) &&
           silktide_is_function host
        then [window_silktide (if truthy accepted then "consent" else "unconsent")]
        else [])).
Proof.
  intros r evs. subst r evs. rewrite triggerConsentIntegration_run.
  unfold result_of, store_of, events_of, trigger_events. cbn [fst snd].
  split; [done|]. split; [done|]. split.
  - by intros ->.
  - intros params ->. split; [|split; [|split]].
    + rewrite List.filter_app. destruct (gtag_is_function host); [done|].
      by destruct (_ && _).
    + by rewrite last_snoc.
    + exists (assign_params params (consentState accepted) ∅). split.
      * intros p. rewrite assign_params_lookup, lookup_empty. unfold consentState.
        by destruct (bool_decide (p ∈ params)).
      * rewrite List.filter_app. destruct (gtag_is_function host); [done|].
        by destruct (_ && _).
    + rewrite List.filter_app. destruct (gtag_is_function host); [done|].
      cbn [negb andb]. by destruct (_ && _).
Qed.

(** ** Replaying the stored callbacks *)

Section Stored.

Variable host : Host.
Variable this : Manager.
Hypothesis Hok : storage_ok host this.




End Stored.








(** ** The preferences form and the default consent *)

Section Default.

Variable host : Host.
Variable this : Manager.
Hypothesis Hok : storage_ok host this.

Lemma updateCheckboxState_run form s :
  updateCheckboxState host this form s =
    (Ok tt, set_localStorage (form_reads this form) s, []).
Proof.
  unfold updateCheckboxState, form_reads. revert s.
  induction form as [|consentId form IH]; intros s.
  - simpl. unfold ret. by rewrite set_localStorage_id.
  - cbn [forEach fold_left]. etransitivity.
    + eapply (bind_silent _ _ _ tt
                (set_localStorage
                   (fun ls =>
                      match List.find (fun ty => String.eqb (id ty) consentId)
                              (consentTypes (config this)) with
                      | Some ty =>
                          if required ty then ls else migrate_choice this consentId ls
                      | None => ls
                      end) s)).
      destruct (List.find _ _) as [ty|].
      * destruct (required ty).
        -- unfold ret. by rewrite set_localStorage_id.
        -- by rewrite (bind_silent _ _ _ _ _ (getConsentChoice_ok host this Hok _ _)).
      * unfold ret. by rewrite set_localStorage_id.
    + rewrite IH. reflexivity.
Qed.

Lemma stored_choice_form_reads form ls x :
  stored_choice this (form_reads this form ls) x = stored_choice this ls x.
Proof.
  unfold form_reads. revert ls. induction form as [|c form IH]; intros ls; simpl.
  - done.
  - rewrite IH. destruct (List.find _ _) as [ty|]; [|done].
    destruct (required ty); [done|]. apply stored_choice_migrate.
Qed.

Lemma form_reads_foreign form ls k :
  foreign_key this k -> form_reads this form ls !! k = ls !! k.
Proof.
  intros Hk. unfold form_reads. revert ls.
  induction form as [|c form IH]; intros ls; simpl; [done|].
  rewrite IH. destruct (List.find _ _) as [ty|]; [|done].
  destruct (required ty); [done|].
  unfold migrate_choice. destruct (Hk c). by apply migrate_lookup_other.
Qed.

Lemma settled_form_reads form ls y :
  settled this ls y -> settled this (form_reads this form ls) y.
Proof.
  unfold form_reads. revert ls. induction form as [|c form IH]; intros ls H; simpl.
  - done.
  - apply IH. destruct (List.find _ _) as [ty|]; [|done].
    destruct (required ty); [done|]. apply settled_migrate. by right.
Qed.

Lemma form_reads_settles form ls c ty :
  c ∈ form ->
  List.find (fun ty => String.eqb (id ty) c) (consentTypes (config this)) = Some ty ->
  required ty = false ->
  settled this (form_reads this form ls) c.
Proof.
  unfold form_reads. revert ls.
  induction form as [|c' form IH]; intros ls Hc Hf Hr; simpl.
  - by apply elem_of_nil in Hc.
  - apply elem_of_cons in Hc as [<-|Hc]; [|by apply IH].
    rewrite Hf, Hr. apply (settled_form_reads form). apply settled_migrate. by left.
Qed.

Lemma form_reads_fixed form ls :
  (forall c ty, c ∈ form ->
     List.find (fun ty => String.eqb (id ty) c) (consentTypes (config this)) = Some ty ->
     required ty = false -> settled this ls c) ->
  form_reads this form ls = ls.
Proof.
  unfold form_reads. induction form as [|c form IH]; intros H; simpl; [done|].
  assert (match List.find (fun ty => String.eqb (id ty) c) (consentTypes (config this)) with
          | Some ty => if required ty then ls else migrate_choice this c ls
          | None => ls
          end = ls) as ->.
  { destruct (List.find _ _) as [ty|] eqn:Hf; [|done].
    destruct (required ty) eqn:Hr; [done|].
    apply migrate_choice_settled. by apply (H c ty); [apply list_elem_of_here|..]. }
  apply IH. intros c' ty Hc'. apply H. by apply list_elem_of_further.
Qed.

Lemma handleDefaultConsent_loop form tys s :
  forEach tys (fun ty =>
    let accepted := required ty || defaultValue ty in
    let* _ := setConsentChoice host this (id ty) (JBool accepted) in
    let* _ :=
      (if accepted then
         if onAccept ty then emit (call_onAccept (id ty)) else ret tt
       else
         if onReject ty then emit (call_onReject (id ty)) else ret tt) in
    let* _ := setHasConsented host this in
    updateCheckboxState host this form) s =
  (Ok tt, set_localStorage (fun ls => fold_left (default_step this form) tys ls) s,
   flat_map default_callback tys).
Proof.
  revert s. induction tys as [|ty tys IH]; intros s.
  - simpl. unfold ret. by rewrite set_localStorage_id.
  - cbn [forEach fold_left flat_map]. etransitivity.
    + eapply bind_step; [|apply IH].
      instantiate (1 := default_callback ty).
      instantiate (1 := set_localStorage (fun ls => default_step this form ls ty) s).
      cbv zeta.
      rewrite (bind_silent _ _ _ _ _ (setConsentChoice_ok host this Hok _ _ _)).
      unfold default_callback, default_step.
      assert (forall (evs : list event) (m : M unit) s0,
                m s0 = (Ok tt, s0, evs) ->
                bind m (fun _ => bind (setHasConsented host this)
                                   (fun _ => updateCheckboxState host this form)) s0 =
                (Ok tt,
                 set_localStorage (form_reads this form)
                   (set_localStorage
                      (fun ls => delete (_buildOldHasConsentedKey this)
                                   (<[_buildHasConsentedKey this := "1"]> ls)) s0),
                 evs)) as Hrest.
      { intros evs m s0 Hm. rewrite <- (app_nil_r evs).
        eapply bind_step; [exact Hm|].
        rewrite (bind_silent _ _ _ _ _ (setHasConsented_ok host this _ Hok)).
        apply updateCheckboxState_run. }
      destruct (required ty || defaultValue ty).
      * destruct (onAccept ty); by rewrite (Hrest _ _ _ eq_refl).
      * destruct (onReject ty); by rewrite (Hrest _ _ _ eq_refl).
    + reflexivity.
Qed.

Lemma stored_choice_default_step form ls ty x :
  stored_choice this (default_step this form ls ty) x =
    if bool_decide (x = id ty) then JBool (required ty || defaultValue ty)
    else stored_choice this ls x.
Proof.
  unfold default_step. rewrite stored_choice_form_reads, stored_choice_mark.
  destruct (decide (x = id ty)) as [->|Hne].
  - rewrite bool_decide_eq_true_2 by done. apply stored_choice_store_same.
  - rewrite bool_decide_eq_false_2 by done. by apply stored_choice_store_other.
Qed.

Lemma default_step_flag form ls ty :
  default_step this form ls ty !! _buildHasConsentedKey this = Some "1".
Proof.
  unfold default_step. rewrite form_reads_foreign by apply flag_keys_foreign.
  rewrite lookup_delete_ne, lookup_insert_eq; [done|].
  intros H. symmetry in H. by apply hasConsented_key_not_old in H.
Qed.

Lemma default_fold_other form tys ls x :
  x ∉ map id tys ->
  stored_choice this (fold_left (default_step this form) tys ls) x =
  stored_choice this ls x.
Proof.
  revert ls. induction tys as [|ty tys IH]; intros ls Hx; simpl; [done|].
  simpl in Hx. apply not_elem_of_cons in Hx as [Hne Hx].
  rewrite IH, stored_choice_default_step by done.
  by rewrite bool_decide_eq_false_2.
Qed.

Lemma default_fold_stored form tys ls ty :
  NoDup (map id tys) -> ty ∈ tys ->
  stored_choice this (fold_left (default_step this form) tys ls) (id ty) =
  JBool (required ty || defaultValue ty).
Proof.
  revert ls. induction tys as [|ty' tys IH]; intros ls Hnd Hty; simpl.
  - by apply elem_of_nil in Hty.
  - simpl in Hnd. apply list.NoDup_cons in Hnd as [Hfresh Hnd].
    apply elem_of_cons in Hty as [->|Hty]; [|by apply IH].
    rewrite default_fold_other, stored_choice_default_step by done.
    by rewrite bool_decide_eq_true_2.
Qed.

Lemma default_fold_flag form tys ls :
  tys <> [] ->
  fold_left (default_step this form) tys ls !! _buildHasConsentedKey this = Some "1".
Proof.
  intros Hne. destruct tys as [|ty tys]; [done|]. clear Hne. simpl.
  generalize (default_step_flag form ls ty).
  generalize (default_step this form ls ty). clear ls.
  induction tys as [|ty' tys IH]; intros ls H; simpl; [done|].
  apply IH, default_step_flag.
Qed.

End Default.

(** X21.  On a working storage [handleDefaultConsent] returns normally
    and, with unique category identifiers, leaves every configured category
    stored as Granted when it is required or on by default and as Denied
    otherwise, and the has-consented flag set.  For each category, in
    configuration order, it calls [onAccept] or [onReject] accordingly, and
    nothing else: no integration call, no event push, no reload, no script
    injection (the document is as before). *)
Theorem handleDefaultConsent_applies_defaults
    (host : Host) (this : Manager) (form : list string) (s : Store) :
  storage_ok host this ->
  NoDup (map id (consentTypes (config this))) ->
  consentTypes (config this) <> [] ->
  let r := handleDefaultConsent host this form s in
  result_of r = Ok tt /\
  (forall ty, ty ∈ consentTypes (config this) ->
     stored_choice this (localStorage (store_of r)) (id ty) =
       JBool (required ty || defaultValue ty)) /\
  (forall x, x ∉ map id (consentTypes (config this)) ->
     stored_choice this (localStorage (store_of r)) x =
       stored_choice this (localStorage s) x) /\
  getHasConsented host this (store_of r) = (Ok true, store_of r, []) /\
  events_of r = flat_map default_callback (consentTypes (config this)) /\
  document_scripts (store_of r) = document_scripts s.
Proof.
  intros Hok Hnd Hne r. subst r. unfold handleDefaultConsent.
  rewrite (handleDefaultConsent_loop host this Hok).
  unfold result_of, store_of, events_of. cbn [fst snd].
  split; [done|]. split; [|split; [|split; [|split]]].
  - intros ty Hty. cbn [set_localStorage localStorage].
    by apply default_fold_stored.
  - intros x Hx. cbn [set_localStorage localStorage]. by apply default_fold_other.
  - rewrite (getHasConsented_ok host this _ Hok).
    set (s' := set_localStorage _ s).
    assert (localStorage s' !! _buildHasConsentedKey this = Some "1") as Hnew.
    { subst s'. cbn [set_localStorage localStorage]. by apply default_fold_flag. }
    rewrite set_localStorage_same.
    + unfold read. by rewrite Hnew.
    + unfold migrate. by rewrite Hnew.
  - done.
  - done.
Qed.

Lemma handleDefaultConsent_applies_defaults_witness :
  storage_ok working_host (manager_of [necessary; analytics]) /\
  stored_choice (manager_of [necessary; analytics])
    (localStorage (store_of (handleDefaultConsent working_host
                               (manager_of [necessary; analytics])
                               ["necessary"; "analytics"] empty_page)))
    "analytics" = JBool false.
Proof.
  split; [apply working_host_ok|].
  destruct (handleDefaultConsent_applies_defaults working_host
              (manager_of [necessary; analytics]) ["necessary"; "analytics"] empty_page
              (working_host_ok _)) as (_ & H & _).
  - apply (bool_decide_unpack _). vm_compute. exact I.
  - discriminate.
  - apply (H analytics). apply list_elem_of_further, list_elem_of_here.
Defined.

(** X22.  On a working storage [updateCheckboxState], reading the choices
    into the preferences form, returns normally, calls nothing and writes
    no choice: every stored choice, the has-consented flag and every key
    outside the consent key families are as before, the document is as
    before, and a second reading leaves the storage exactly as the first
    left it (the first may move legacy keys of the categories shown). *)
Theorem updateCheckboxState_only_reads
    (host : Host) (this : Manager) (form : list string) (s : Store) :
  storage_ok host this ->
  let r := updateCheckboxState host this form s in
  result_of r = Ok tt /\ events_of r = [] /\
  document_scripts (store_of r) = document_scripts s /\
  (forall x, stored_choice this (localStorage (store_of r)) x =
             stored_choice this (localStorage s) x) /\
  (forall k, foreign_key this k ->
     localStorage (store_of r) !! k = localStorage s !! k) /\
  updateCheckboxState host this form (store_of r) = (Ok tt, store_of r, []).
Proof.
  intros Hok r. subst r. rewrite (updateCheckboxState_run host this Hok).
  unfold result_of, store_of, events_of.
  cbn [fst snd set_localStorage localStorage document_scripts].
  split; [done|]. split; [done|]. split; [done|]. split; [|split].
  - intros x. apply stored_choice_form_reads.
  - intros k Hk. by apply form_reads_foreign.
  - rewrite (updateCheckboxState_run host this Hok).
    rewrite set_localStorage_same; [done|]. cbn [localStorage].
    apply form_reads_fixed. intros c ty Hc Hf Hr.
    by apply (form_reads_settles this form (localStorage s) c ty).
Qed.

Lemma updateCheckboxState_only_reads_witness :
  storage_ok working_host (manager_of [necessary; analytics]) /\
  stored_choice (manager_of [necessary; analytics])
    (localStorage (store_of (updateCheckboxState working_host
                               (manager_of [necessary; analytics])
                               ["necessary"; "analytics"] legacy_page)))
    "analytics" = JBool true.
Proof.
  split; [apply working_host_ok|].
  destruct (updateCheckboxState_only_reads working_host
              (manager_of [necessary; analytics]) ["necessary"; "analytics"] legacy_page
              (working_host_ok _)) as (_ & _ & _ & H & _).
  rewrite H. vm_compute. reflexivity.
Defined.

(** ** Construction *)



(** ** Reset, then load *)





(** ** A choice, then the next page load *)




(** ** Revocation *)

(** X26.  On every host [_wasConsentRevoked] returns normally, logging at
    most warnings and leaving the document alone.  On a working storage it
    answers [true] exactly when the category is stored as Granted and the
    new state is the boolean [false], and it changes no stored choice; when
    the storage probe failed it answers [false] whatever is stored, so a
    revocation is never detected there. *)
Theorem wasConsentRevoked_tests_granted_then_false
    (host : Host) (this : Manager) (consentId : string) (newState : jsval) (s : Store) :
  let r := _wasConsentRevoked host this consentId newState s in
  (exists b, result_of r = Ok b) /\
  Forall (fun e => is_warning e = true) (events_of r) /\
  document_scripts (store_of r) = document_scripts s /\
  (storage_ok host this ->
     (result_of r = Ok true <->
      choice this (localStorage s) consentId = Granted /\ newState = JBool false) /\
     forall x, stored_choice this (localStorage (store_of r)) x =
               stored_choice this (localStorage s) x) /\
  (localStorageAvailable this = false -> r = (Ok false, s, [])).
Proof.
  intros r. subst r. unfold _wasConsentRevoked.
  destruct (re_getConsentChoice host this consentId s) as (v & s1 & ev1 & E & F & D).
  rewrite (bind_run _ _ _ _ _ _ E).
  unfold ret, result_of, store_of, events_of. cbn [fst snd]. rewrite app_nil_r.
  split; [eauto|]. split; [done|]. split; [done|]. split.
  - intros Hok. rewrite (getConsentChoice_ok host this Hok) in E.
    inversion E; subst. split.
    + unfold wasRevoked, choice. split.
      * intros [= [H1 H2]%andb_true_iff].
        apply bool_decide_eq_true in H1, H2. by rewrite H1.
      * intros [H1 ->]. f_equal. apply andb_true_iff.
        split; apply bool_decide_eq_true; [|done].
        by destruct (stored_choice this (localStorage s) consentId) as [| |[|]].
    + intros x. apply stored_choice_migrate.
  - intros Ha. unfold getConsentChoice, read_migrating in E.
    rewrite (bind_silent _ _ s None s) in E.
    2:{ rewrite (bind_silent _ _ s None s).
        - rewrite (bind_silent _ _ s None s); [done|].
          rewrite _getLocalStorageItem_eq. by rewrite Ha.
        - rewrite _getLocalStorageItem_eq. by rewrite Ha. }
    unfold ret in E. inversion E; subst. reflexivity.
Qed.

Example revocation_detected :
  result_of (_wasConsentRevoked working_host (manager_of [analytics]) "analytics"
               (JBool false) granted_page) = Ok true /\
  result_of (_wasConsentRevoked working_host (manager_of [analytics]) "analytics"
               (JBool false) empty_page) = Ok false.
Proof. vm_compute. split; reflexivity. Qed.
